(** * go-ipfs-tracing: span helpers and attribute constructors

    A shallow embedding of [src/tracing.go] and of the second source file of
    the package ([src/unnamed/part_000], an edition of the same package whose
    list helpers build their attribute inline), together with the properties
    of the package that its specification states.

    Layout: the parts of Go's [fmt], [strings] and slice semantics the package
    uses; the OpenTelemetry attribute and tracer interfaces as the package
    consumes them; the two source files, one module each; a recording stub
    backend; then the theorems. *)

From Stdlib Require Import ZArith List String Ascii Lia Bool DecimalString DecimalPos DecimalZ.
From stdpp Require Import base list.
Import ListNotations.

Local Open Scope Z_scope.

(** Strings are concatenated with [+++] throughout, lists with [++]. *)
Infix "+++" := String.append (at level 60, right associativity).

(* ------------------------------------------------------------------ *)
(** ** Go's [int] *)

Module GoInt.

(** [int] is 64 bits wide on the platforms the package targets; arithmetic
    wraps around in two's complement. *)
Definition bits : Z := 64.
Definition MinInt : Z := - 2 ^ 63.
Definition MaxInt : Z := 2 ^ 63 - 1.

Definition wrap (z : Z) : Z := (z + 2 ^ 63) mod 2 ^ 64 - 2 ^ 63.

Definition sub (a b : Z) : Z := wrap (a - b).

Definition in_range (z : Z) : Prop := MinInt <= z <= MaxInt.

(** [len(s)] of a slice.  A Go slice never holds more than [MaxInt]
    elements, so no wrap-around is involved in taking a length. *)
Definition len {A : Type} (s : list A) : Z := Z.of_nat (length s).

End GoInt.

(* ------------------------------------------------------------------ *)
(** ** The verbs of [fmt.Sprintf] and [strings.Join] *)

Module fmt.

(** An operand of [Sprintf]: the package only ever passes strings and
    ints. *)
Inductive Arg : Type :=
| AString (s : string)
| AInt (z : Z).

(** [%d] on an [int]: decimal digits, a leading minus sign when negative. *)
Definition itoa (z : Z) : string := NilZero.string_of_int (Z.to_int z).

(** What a verb prints for an operand.  A verb applied to an operand of the
    wrong type prints Go's [%!verb(type=value)] marker. *)
Definition verb_s (a : Arg) : string :=
  match a with
  | AString s => s
  | AInt z => "%!s(int=" +++ itoa z +++ ")"
  end.

Definition verb_d (a : Arg) : string :=
  match a with
  | AInt z => itoa z
  | AString s => "%!d(string=" +++ s +++ ")"
  end.

(** [Sprintf format args] for the verbs [%s], [%d] and [%%].  Operands are
    consumed left to right; a verb with no operand left prints
    [%!verb(MISSING)].  Any other character after [%] is outside the
    fragment and is copied through. *)
Fixpoint Sprintf (format : string) (args : list Arg) : string :=
  match format with
  | EmptyString => EmptyString
  | String "%"%char (String "s"%char rest) =>
      match args with
      | a :: args' => verb_s a +++ Sprintf rest args'
      | [] => "%!s(MISSING)" +++ Sprintf rest []
      end
  | String "%"%char (String "d"%char rest) =>
      match args with
      | a :: args' => verb_d a +++ Sprintf rest args'
      | [] => "%!d(MISSING)" +++ Sprintf rest []
      end
  | String "%"%char (String "%"%char rest) =>
      String "%"%char (Sprintf rest args)
  | String c rest => String c (Sprintf rest args)
  end.

End fmt.

Module strings.

(** [strings.Join(elems, sep)]: no element gives the empty string, one
    element gives that element, otherwise the first element followed by
    [sep] and the next element, for each further element. *)
Fixpoint join_tail (elems : list string) (sep : string) : string :=
  match elems with
  | [] => EmptyString
  | s :: rest => sep +++ s +++ join_tail rest sep
  end.

Definition Join (elems : list string) (sep : string) : string :=
  match elems with
  | [] => EmptyString
  | [s] => s
  | s :: rest => s +++ join_tail rest sep
  end.

End strings.

(* ------------------------------------------------------------------ *)
(** ** Slices *)

Module slice.

(** [make([]string, n)]: a slice of [n] empty strings; a negative length
    panics. *)
Definition make_strings (n : Z) : option (list string) :=
  if n <? 0 then None else Some (replicate (Z.to_nat n) EmptyString).

(** [s[i]]: the element at index [i], a run-time panic ([None]) when the
    index is out of range. *)
Definition index {A : Type} (s : list A) (i : Z) : option A :=
  if (i <? 0) || (GoInt.len s <=? i) then None else s !! Z.to_nat i.

(** [s[i] = x]: the slice with element [i] replaced, a run-time panic when
    the index is out of range. *)
Definition assign {A : Type} (s : list A) (i : Z) (x : A) : option (list A) :=
  if (i <? 0) || (GoInt.len s <=? i) then None else Some (<[Z.to_nat i := x]> s).

(** The body of a [for i := range s] loop run for the indices [is], in
    order, threading the loop's variables [st]; a panic in the body ends
    the loop. *)
Fixpoint for_indices {S : Type} (body : Z -> S -> option S)
         (indices : list nat) (st : S) : option S :=
  match indices with
  | [] => Some st
  | i :: rest =>
      match body (Z.of_nat i) st with
      | Some st' => for_indices body rest st'
      | None => None
      end
  end.

(** [for i := range s { body }]: the range expression is evaluated once,
    before the loop, and [i] runs over [0 .. len(s)-1]. *)
Definition for_range {A S : Type} (s : list A) (body : Z -> S -> option S)
           (st : S) : option S :=
  for_indices body (seq 0 (length s)) st.

End slice.

(* ------------------------------------------------------------------ *)
(** ** Panics *)

(** A computation that may panic: [None] is the panic.  [x <-? m ; k] runs
    [m] and continues with [k] unless [m] panicked. *)
Notation "x <-? m ; k" :=
  (match m with Some x => k | None => None end)
  (at level 100, m at next level, right associativity, only parsing).

(* ------------------------------------------------------------------ *)
(** ** [go.opentelemetry.io/otel/attribute] *)

Module attribute.

(** The two kinds of attribute value the package builds. *)
Inductive Value : Type :=
| StringValue (s : string)
| Int64Value (z : Z).

Record KeyValue : Type := mkKeyValue { Key : string; Val : Value }.

(** [attribute.String(k, v)] and [attribute.Int(k, v)]. *)
Definition String (k v : string) : KeyValue := mkKeyValue k (StringValue v).
Definition Int (k : string) (v : Z) : KeyValue := mkKeyValue k (Int64Value v).

End attribute.

(* ------------------------------------------------------------------ *)
(** ** The identifier types: [cid.Cid], [path.Path], [blocks.Block] *)

Module ident.

(** A type with a [String() string] method ([cid.Cid], [path.Path]).
    [cid.Cid] is a struct and its method returns for every value.
    [path.Path] is an interface: the type [T] stands for its values that
    are not nil; calling the method on a nil [path.Path] panics in Go and
    has no counterpart here. *)
Class Stringer (T : Type) := ToString : T -> string.

(** [blocks.Block]: a type with a [Cid() cid.Cid] method.  It is an
    interface, and [B] stands for its values that are not nil, as for
    [path.Path]. *)
Class Block (B C : Type) := BlockCid : B -> C.

End ident.

(* ------------------------------------------------------------------ *)
(** ** [go.opentelemetry.io/otel/trace] and the global tracer *)

Module trace.

Inductive SpanStartOption : Type :=
| WithAttributes (attrs : list attribute.KeyValue)
| WithNewRoot
| WithSpanKind (kind : Z).

(** The tracing backend, for a type [Ctx] of contexts, a type [SpanH] of
    span handles and a type [W] of backend states.  [tracer_Start t] is
    [otel.Tracer(t).Start]. *)
Class Backend (Ctx SpanH W : Type) : Type := mkBackend {
  tracer_Start : string -> Ctx -> string -> list SpanStartOption -> W -> (Ctx * SpanH) * W;
  span_IsRecording : SpanH -> W -> bool * W;
  span_SetAttributes : SpanH -> list attribute.KeyValue -> W -> W
}.

Section Monad.
Context {Ctx SpanH W : Type}.

(** A call the package makes into the backend. *)
Inductive Call : Type :=
| CallStart (tracer : string) (ctx : Ctx) (spanName : string) (opts : list SpanStartOption)
| CallIsRecording (span : SpanH)
| CallSetAttributes (span : SpanH) (kvs : list attribute.KeyValue).

(** The world a span helper runs in: the backend's state and the calls
    made into the backend so far, oldest first. *)
Record World : Type := mkWorld { backend : W; calls : list Call }.

(** A computation over the world that may panic. *)
Definition M (A : Type) : Type := World -> option A * World.

Definition ret {A : Type} (a : A) : M A := fun w => (Some a, w).

Definition bind {A B : Type} (m : M A) (k : A -> M B) : M B :=
  fun w =>
    match m w with
    | (Some a, w') => k a w'
    | (None, w') => (None, w')
    end.

(** A pure computation that may panic, run in the world. *)
Definition lift {A : Type} (r : option A) : M A := fun w => (r, w).

Definition record (c : Call) (w : World) (b : W) : World :=
  mkWorld b (calls w ++ [c]).

Context `{!Backend Ctx SpanH W}.

Definition Start (tracer : string) (ctx : Ctx) (spanName : string)
           (opts : list SpanStartOption) : M (Ctx * SpanH) :=
  fun w =>
    let '(r, b) := tracer_Start tracer ctx spanName opts (backend w) in
    (Some r, record (CallStart tracer ctx spanName opts) w b).

Definition IsRecording (span : SpanH) : M bool :=
  fun w =>
    let '(r, b) := span_IsRecording span (backend w) in
    (Some r, record (CallIsRecording span) w b).

Definition SetAttributes (span : SpanH) (kvs : list attribute.KeyValue) : M unit :=
  fun w =>
    (Some tt, record (CallSetAttributes span kvs) w
                     (span_SetAttributes span kvs (backend w))).

(** Running a computation from a backend state, with an empty log. *)
Definition run {A : Type} (m : M A) (b : W) : option A * World :=
  m (mkWorld b []).

Definition log {A : Type} (m : M A) (b : W) : list Call := calls (snd (run m b)).

(** What a log shows: the span names started, the [SetAttributes] calls,
    and every attribute handed to the backend, whether as a start option
    or through [SetAttributes]. *)
Definition option_attributes (o : SpanStartOption) : list attribute.KeyValue :=
  match o with
  | WithAttributes attrs => attrs
  | _ => []
  end.

Definition started_names (l : list Call) : list string :=
  flat_map (fun c => match c with CallStart _ _ n _ => [n] | _ => [] end) l.

Definition set_attributes_calls (l : list Call) : list (SpanH * list attribute.KeyValue) :=
  flat_map (fun c => match c with CallSetAttributes s kvs => [(s, kvs)] | _ => [] end) l.

Definition attributes_handed (l : list Call) : list attribute.KeyValue :=
  flat_map (fun c => match c with
                     | CallStart _ _ _ opts => flat_map option_attributes opts
                     | CallIsRecording _ => []
                     | CallSetAttributes _ kvs => kvs
                     end) l.

(** The span that [Start] returns from state [b]. *)
Definition started_span (tracer : string) (ctx : Ctx) (spanName : string)
           (opts : list SpanStartOption) (b : W) : SpanH :=
  snd (fst (tracer_Start tracer ctx spanName opts b)).

(** Whether the span that [Start] returns from state [b] is recording. *)
Definition recording_after_start (tracer : string) (ctx : Ctx) (spanName : string)
           (opts : list SpanStartOption) (b : W) : bool :=
  let '((_, span), b1) := tracer_Start tracer ctx spanName opts b in
  fst (span_IsRecording span b1).

End Monad.

Arguments Call : clear implicits.
Arguments World : clear implicits.
Arguments M : clear implicits.

End trace.

Notation "'do' x <- m ;; k" := (trace.bind m (fun x => k))
  (at level 100, x name, m at next level, right associativity).
Notation "'do' ' p <- m ;; k" := (trace.bind m (fun x => let p := x in k))
  (at level 100, p pattern, m at next level, right associativity).
Notation "m ;;; k" := (trace.bind m (fun _ => k))
  (at level 100, right associativity).

(* ------------------------------------------------------------------ *)
(** ** [src/tracing.go] *)

Module Tracing.
Section Tracing.
Context {Ctx SpanH W : Type} `{!trace.Backend Ctx SpanH W}.
Context {Cid Path Block : Type}
        `{!ident.Stringer Cid} `{!ident.Stringer Path} `{!ident.Block Block Cid}.

Local Abbreviation M := (trace.M Ctx SpanH W).

(** [Span] starts a new span using the standard IPFS tracing
    conventions. *)
Definition Span (ctx : Ctx) (componentName spanName : string)
           (opts : list trace.SpanStartOption) : M (Ctx * SpanH) :=
  trace.Start "" ctx
    (fmt.Sprintf "%s.%s" [fmt.AString componentName; fmt.AString spanName]) opts.

Definition SpanWithStringAttribute (ctx : Ctx) (componentName spanName : string)
           (k v : string) : M (Ctx * SpanH) :=
  Span ctx componentName spanName [trace.WithAttributes [attribute.String k v]].

Definition SpanWithIntAttribute (ctx : Ctx) (componentName spanName : string)
           (k : string) (v : Z) : M (Ctx * SpanH) :=
  Span ctx componentName spanName [trace.WithAttributes [attribute.Int k v]].

(** [PathAttribute] creates a span attribute with a standard name for
    representing a Path. *)
Definition PathAttribute (p : Path) : attribute.KeyValue :=
  attribute.String "path" (ident.ToString p).

(** [CidAttribute] creates a span attribute with a standard name for
    representing a CID. *)
Definition CidAttribute (c : Cid) : attribute.KeyValue :=
  attribute.String "cid" (ident.ToString c).

(** [CidListAttribute] creates a span attribute with a standard name for
    representing a list of CIDs. *)
Definition CidListAttribute (cs : list Cid) : option attribute.KeyValue :=
  value <-?
    (if GoInt.len cs =? 0 then Some "empty list"%string
     else
       let max := 3 in
       let max := if max >? GoInt.len cs then GoInt.len cs else max in
       cids <-? slice.make_strings max;
       cids <-? slice.for_range cids
                  (fun i cids =>
                     c <-? slice.index cs i;
                     slice.assign cids i (ident.ToString c))
                  cids;
       let value := strings.Join cids "," in
       let value :=
         if max <? GoInt.len cs
         then value +++ fmt.Sprintf " and %d more"
                                    [fmt.AInt (GoInt.sub (GoInt.len cs) max)]
         else value in
       Some value);
  Some (attribute.String "cids" value).

(** [BlockAttribute] creates a span attribute with a standard name for
    representing a block. *)
Definition BlockAttribute (b : Block) : attribute.KeyValue :=
  attribute.String "block" (ident.ToString (ident.BlockCid b)).

(** [BlockListAttribute] creates a span attribute with a standard name
    for representing a list of blocks. *)
Definition BlockListAttribute (bs : list Block) : option attribute.KeyValue :=
  value <-?
    (if GoInt.len bs =? 0 then Some "empty list"%string
     else
       let max := 3 in
       let max := if max >? GoInt.len bs then GoInt.len bs else max in
       cids <-? slice.make_strings max;
       cids <-? slice.for_range cids
                  (fun i cids =>
                     b <-? slice.index bs i;
                     slice.assign cids i (ident.ToString (ident.BlockCid b)))
                  cids;
       let value := strings.Join cids "," in
       let value :=
         if max <? GoInt.len bs
         then value +++ fmt.Sprintf " and %d more"
                                    [fmt.AInt (GoInt.sub (GoInt.len bs) max)]
         else value in
       Some value);
  Some (attribute.String "blocks" value).

Definition SpanWithPathAttribute (ctx : Ctx) (componentName spanName : string)
           (p : Path) : M (Ctx * SpanH) :=
  do '(ctx, span) <- Span ctx componentName spanName [] ;;
  do recording <- trace.IsRecording span ;;
  (if recording : bool
   then trace.SetAttributes span [PathAttribute p]
   else trace.ret tt) ;;;
  trace.ret (ctx, span).

Definition SpanWithCidAttribute (ctx : Ctx) (componentName spanName : string)
           (c : Cid) : M (Ctx * SpanH) :=
  do '(ctx, span) <- Span ctx componentName spanName [] ;;
  do recording <- trace.IsRecording span ;;
  (if recording : bool
   then trace.SetAttributes span [attribute.String "cid" (ident.ToString c)]
   else trace.ret tt) ;;;
  trace.ret (ctx, span).

Definition SpanWithCidListAttribute (ctx : Ctx) (componentName spanName : string)
           (cs : list Cid) : M (Ctx * SpanH) :=
  do '(ctx, span) <- Span ctx componentName spanName [] ;;
  do recording <- trace.IsRecording span ;;
  (if recording : bool
   then do kv <- trace.lift (CidListAttribute cs) ;;
        trace.SetAttributes span [kv]
   else trace.ret tt) ;;;
  trace.ret (ctx, span).

Definition SpanWithBlockAttribute (ctx : Ctx) (componentName spanName : string)
           (b : Block) : M (Ctx * SpanH) :=
  do '(ctx, span) <- Span ctx componentName spanName [] ;;
  do recording <- trace.IsRecording span ;;
  (if recording : bool
   then trace.SetAttributes span [BlockAttribute b]
   else trace.ret tt) ;;;
  trace.ret (ctx, span).

Definition SpanWithBlockListAttribute (ctx : Ctx) (componentName spanName : string)
           (bs : list Block) : M (Ctx * SpanH) :=
  do '(ctx, span) <- Span ctx componentName spanName [] ;;
  do recording <- trace.IsRecording span ;;
  (if recording : bool
   then do kv <- trace.lift (BlockListAttribute bs) ;;
        trace.SetAttributes span [kv]
   else trace.ret tt) ;;;
  trace.ret (ctx, span).

End Tracing.
End Tracing.

(* ------------------------------------------------------------------ *)
(** ** [src/unnamed/part_000] *)

Module Part000.
Section Part000.
Context {Ctx SpanH W : Type} `{!trace.Backend Ctx SpanH W}.
Context {Cid Path Block : Type}
        `{!ident.Stringer Cid} `{!ident.Stringer Path} `{!ident.Block Block Cid}.

Local Abbreviation M := (trace.M Ctx SpanH W).

Definition Span (ctx : Ctx) (componentName spanName : string)
           (opts : list trace.SpanStartOption) : M (Ctx * SpanH) :=
  trace.Start "" ctx
    (fmt.Sprintf "%s.%s" [fmt.AString componentName; fmt.AString spanName]) opts.

Definition SpanWithStringAttribute (ctx : Ctx) (componentName spanName : string)
           (k v : string) : M (Ctx * SpanH) :=
  Span ctx componentName spanName [trace.WithAttributes [attribute.String k v]].

Definition SpanWithIntAttribute (ctx : Ctx) (componentName spanName : string)
           (k : string) (v : Z) : M (Ctx * SpanH) :=
  Span ctx componentName spanName [trace.WithAttributes [attribute.Int k v]].

Definition SpanWithPathAttribute (ctx : Ctx) (componentName spanName : string)
           (p : Path) : M (Ctx * SpanH) :=
  do '(ctx, span) <- Span ctx componentName spanName [] ;;
  do recording <- trace.IsRecording span ;;
  (if recording : bool
   then trace.SetAttributes span [attribute.String "path" (ident.ToString p)]
   else trace.ret tt) ;;;
  trace.ret (ctx, span).

Definition SpanWithCidAttribute (ctx : Ctx) (componentName spanName : string)
           (c : Cid) : M (Ctx * SpanH) :=
  do '(ctx, span) <- Span ctx componentName spanName [] ;;
  do recording <- trace.IsRecording span ;;
  (if recording : bool
   then trace.SetAttributes span [attribute.String "cid" (ident.ToString c)]
   else trace.ret tt) ;;;
  trace.ret (ctx, span).

(** The attribute value is built inline, inside the recording branch. *)
Definition SpanWithCidListAttribute (ctx : Ctx) (componentName spanName : string)
           (cs : list Cid) : M (Ctx * SpanH) :=
  do '(ctx, span) <- Span ctx componentName spanName [] ;;
  do recording <- trace.IsRecording span ;;
  (if recording : bool
   then
     do value <- trace.lift
       (if GoInt.len cs =? 0 then Some "empty list"%string
        else
          let max := 3 in
          let max := if max >? GoInt.len cs then GoInt.len cs else max in
          cids <-? slice.make_strings max;
          cids <-? slice.for_range cids
                     (fun i cids =>
                        c <-? slice.index cs i;
                        slice.assign cids i (ident.ToString c))
                     cids;
          let value := strings.Join cids "," in
          let value :=
            if max <? GoInt.len cs
            then value +++ fmt.Sprintf " and %d more"
                                       [fmt.AInt (GoInt.sub (GoInt.len cs) max)]
            else value in
          Some value) ;;
     trace.SetAttributes span [attribute.String "cids" value]
   else trace.ret tt) ;;;
  trace.ret (ctx, span).

Definition SpanWithBlockAttribute (ctx : Ctx) (componentName spanName : string)
           (b : Block) : M (Ctx * SpanH) :=
  do '(ctx, span) <- Span ctx componentName spanName [] ;;
  do recording <- trace.IsRecording span ;;
  (if recording : bool
   then trace.SetAttributes span
          [attribute.String "block" (ident.ToString (ident.BlockCid b))]
   else trace.ret tt) ;;;
  trace.ret (ctx, span).

(** Here the call to [SetAttributes] sits inside the [else] branch of the
    length test: with an empty list, [value] is assigned and the branch
    ends. *)
Definition SpanWithBlockListAttribute (ctx : Ctx) (componentName spanName : string)
           (bs : list Block) : M (Ctx * SpanH) :=
  do '(ctx, span) <- Span ctx componentName spanName [] ;;
  do recording <- trace.IsRecording span ;;
  (if recording : bool
   then
     if GoInt.len bs =? 0
     then let value := "empty list"%string in trace.ret tt
     else
       do value <- trace.lift
         (let max := 3 in
          let max := if max >? GoInt.len bs then GoInt.len bs else max in
          cids <-? slice.make_strings max;
          cids <-? slice.for_range cids
                     (fun i cids =>
                        b <-? slice.index bs i;
                        slice.assign cids i (ident.ToString (ident.BlockCid b)))
                     cids;
          let value := strings.Join cids "," in
          let value :=
            if max <? GoInt.len bs
            then value +++ fmt.Sprintf " and %d more"
                                       [fmt.AInt (GoInt.sub (GoInt.len bs) max)]
            else value in
          Some value) ;;
       trace.SetAttributes span [attribute.String "blocks" value]
   else trace.ret tt) ;;;
  trace.ret (ctx, span).

End Part000.
End Part000.

(* ------------------------------------------------------------------ *)
(** ** The entry points, by source file and value kind *)

Module entry.

Inductive File : Type := tracing_go | part_000.

Section Entry.
Context {Ctx SpanH W : Type} `{!trace.Backend Ctx SpanH W}.
Context {Cid Path Block : Type}
        `{!ident.Stringer Cid} `{!ident.Stringer Path} `{!ident.Block Block Cid}.

(** The value a span helper is given, one constructor per helper. *)
Inductive Traced : Type :=
| TString (k v : string)
| TInt (k : string) (v : Z)
| TPath (p : Path)
| TCid (c : Cid)
| TCidList (cs : list Cid)
| TBlock (b : Block)
| TBlockList (bs : list Block).

(** The helper of file [f] for the value [t]. *)
Definition SpanWith (f : File) (t : Traced) (ctx : Ctx)
           (componentName spanName : string) : trace.M Ctx SpanH W (Ctx * SpanH) :=
  match f, t with
  | tracing_go, TString k v => Tracing.SpanWithStringAttribute ctx componentName spanName k v
  | tracing_go, TInt k v => Tracing.SpanWithIntAttribute ctx componentName spanName k v
  | tracing_go, TPath p => Tracing.SpanWithPathAttribute ctx componentName spanName p
  | tracing_go, TCid c => Tracing.SpanWithCidAttribute ctx componentName spanName c
  | tracing_go, TCidList cs => Tracing.SpanWithCidListAttribute ctx componentName spanName cs
  | tracing_go, TBlock b => Tracing.SpanWithBlockAttribute ctx componentName spanName b
  | tracing_go, TBlockList bs => Tracing.SpanWithBlockListAttribute ctx componentName spanName bs
  | part_000, TString k v => Part000.SpanWithStringAttribute ctx componentName spanName k v
  | part_000, TInt k v => Part000.SpanWithIntAttribute ctx componentName spanName k v
  | part_000, TPath p => Part000.SpanWithPathAttribute ctx componentName spanName p
  | part_000, TCid c => Part000.SpanWithCidAttribute ctx componentName spanName c
  | part_000, TCidList cs => Part000.SpanWithCidListAttribute ctx componentName spanName cs
  | part_000, TBlock b => Part000.SpanWithBlockAttribute ctx componentName spanName b
  | part_000, TBlockList bs => Part000.SpanWithBlockListAttribute ctx componentName spanName bs
  end.

(** The plain [Span] of file [f]. *)
Definition SpanOf (f : File) (ctx : Ctx) (componentName spanName : string)
           (opts : list trace.SpanStartOption) : trace.M Ctx SpanH W (Ctx * SpanH) :=
  match f with
  | tracing_go => Tracing.Span ctx componentName spanName opts
  | part_000 => Part000.Span ctx componentName spanName opts
  end.

(** The start options a helper passes to [Span]: the string and int
    helpers pass their attribute as a start option, the others pass
    none. *)
Definition start_options (t : Traced) : list trace.SpanStartOption :=
  match t with
  | TString k v => [trace.WithAttributes [attribute.String k v]]
  | TInt k v => [trace.WithAttributes [attribute.Int k v]]
  | _ => []
  end.

(** No attribute work shows in the log of a helper: no [SetAttributes]
    call and no attribute handed to the backend in any way. *)
Definition no_attribute_work (f : File) (t : Traced) (ctx : Ctx)
           (componentName spanName : string) (b : W) : Prop :=
  trace.set_attributes_calls (trace.log (SpanWith f t ctx componentName spanName) b) = []
  /\ trace.attributes_handed (trace.log (SpanWith f t ctx componentName spanName) b) = [].

End Entry.

Arguments Traced : clear implicits.

End entry.

(* ------------------------------------------------------------------ *)
(** ** A recording stub backend and stub identifiers *)

Module stub.

(** What the stub keeps of a span. *)
Record SpanRecord : Type := mkSpanRecord {
  name : string;
  recording : bool;
  attrs : list attribute.KeyValue
}.

(** The stub's state: whether new spans are sampled, and the spans started
    so far; a span handle is an index into them, a context holds the
    handle of the current span. *)
Record State : Type := mkState { sampling : bool; spans : list SpanRecord }.

Definition SpanH : Type := nat.
Definition Ctx : Type := option nat.

Definition Start (tracer : string) (ctx : Ctx) (spanName : string)
           (opts : list trace.SpanStartOption) (st : State) : (Ctx * SpanH) * State :=
  let id := length (spans st) in
  let r := mkSpanRecord spanName (sampling st)
             (if sampling st then flat_map trace.option_attributes opts else []) in
  ((Some id, id), mkState (sampling st) (spans st ++ [r])).

Definition IsRecording (span : SpanH) (st : State) : bool * State :=
  (match spans st !! span with Some r => recording r | None => false end, st).

Definition SetAttributes (span : SpanH) (kvs : list attribute.KeyValue)
           (st : State) : State :=
  match spans st !! span with
  | Some r =>
      if recording r
      then mkState (sampling st)
             (<[span := mkSpanRecord (name r) true (attrs r ++ kvs)]> (spans st))
      else st
  | None => st
  end.

#[global] Instance backend : trace.Backend Ctx SpanH State :=
  trace.mkBackend Ctx SpanH State Start IsRecording SetAttributes.

Definition sampled : State := mkState true [].
Definition unsampled : State := mkState false [].

(** Stub identifiers: a cid and a path are their canonical strings, a
    block is a cid and its data. *)
Record Cid : Type := mkCid { cid_string : string }.
Record Path : Type := mkPath { path_string : string }.
Record Block : Type := mkBlock { block_cid : Cid; block_data : list Z }.

#[global] Instance cid_stringer : ident.Stringer Cid := cid_string.
#[global] Instance path_stringer : ident.Stringer Path := path_string.
#[global] Instance block_block : ident.Block Block Cid := block_cid.

Definition cidA : Cid := mkCid "QmA".
Definition cidB : Cid := mkCid "QmB".
Definition cidC : Cid := mkCid "QmC".
Definition cidD : Cid := mkCid "QmD".
Definition blk (c : Cid) : Block := mkBlock c [].

End stub.

(* ------------------------------------------------------------------ *)
(** ** The summary of a list, in the specification's words *)

Module spec.

(** Items joined by a comma with no surrounding whitespace. *)
Fixpoint comma_joined (items : list string) : string :=
  match items with
  | [] => EmptyString
  | [s] => s
  | s :: rest => s +++ "," +++ comma_joined rest
  end.

(** The suffix [" and <N> more"] for the [N] items not shown. *)
Definition more (N : nat) : string :=
  " and " +++ fmt.itoa (Z.of_nat N) +++ " more".

(** Bounded list summarization: ["empty list"] for an empty sequence;
    otherwise the first [shown = min(3, length)] items, comma-joined,
    followed by the suffix when [length > shown]. *)
Definition summarize (items : list string) : string :=
  match items with
  | [] => "empty list"
  | _ =>
      let shown := Nat.min 3 (length items) in
      comma_joined (take shown items) +++
      (if (shown <? length items)%nat then more (length items - shown) else EmptyString)
  end.

End spec.

(* ------------------------------------------------------------------ *)
(** ** The computation the four copies of the list code share *)

Module summary.
Section Summary.
Context {A : Type} (f : A -> string) (xs : list A).

(** The body of the loop that fills [cids] from [xs]. *)
Definition fill_body (i : Z) (cids : list string) : option (list string) :=
  x <-? slice.index xs i; slice.assign cids i (f x).

(** What the four copies compute for a list that is not empty: fill
    [cids], join, append the suffix. *)
Definition fill_and_join : option string :=
  let max := 3 in
  let max := if max >? GoInt.len xs then GoInt.len xs else max in
  cids <-? slice.make_strings max;
  cids <-? slice.for_range cids fill_body cids;
  let value := strings.Join cids "," in
  let value :=
    if max <? GoInt.len xs
    then value +++ fmt.Sprintf " and %d more" [fmt.AInt (GoInt.sub (GoInt.len xs) max)]
    else value in
  Some value.

(** The value both list constructors and the inline cid-list copy
    compute, for the string function [f]. *)
Definition list_value : option string :=
  if GoInt.len xs =? 0 then Some "empty list"%string else fill_and_join.

(** The closed form of [list_value] for a list that is not empty: the
    comma-joined strings of the first [min(3, n)] items, with the suffix
    when [n > 3]. *)
Definition shown : string :=
  spec.comma_joined (map f (take (Nat.min 3 (length xs)) xs)) +++
  (if (3 <? length xs)%nat
   then " and " +++ fmt.itoa (GoInt.sub (GoInt.len xs) 3) +++ " more"
   else EmptyString).

Definition rendered : string :=
  match xs with
  | [] => "empty list"
  | _ :: _ => shown
  end.

End Summary.
End summary.

(* ------------------------------------------------------------------ *)
(** ** What a helper does, in normal form *)

Module plan.
Section Plan.
Context {Ctx SpanH W : Type} `{!trace.Backend Ctx SpanH W}.
Context {Cid Path Block : Type}
        `{!ident.Stringer Cid} `{!ident.Stringer Path} `{!ident.Block Block Cid}.

(** A helper either only starts a span with some options, or starts a
    span with no option, asks whether it records and, if it does, sets
    at most one attribute. *)
Inductive Plan : Type :=
| StartOnly (opts : list trace.SpanStartOption)
| Guarded (kv : option attribute.KeyValue).

Definition interp (pl : Plan) (ctx : Ctx) (spanName : string)
  : trace.M Ctx SpanH W (Ctx * SpanH) :=
  match pl with
  | StartOnly opts => trace.Start "" ctx spanName opts
  | Guarded kv =>
      do '(ctx, span) <- trace.Start "" ctx spanName [] ;;
      do recording <- trace.IsRecording span ;;
      (if recording : bool
       then match kv with
            | Some kv => trace.SetAttributes span [kv]
            | None => trace.ret tt
            end
       else trace.ret tt) ;;;
      trace.ret (ctx, span)
  end.

(** The normal form of each helper of each file. *)
Definition for_helper (f : entry.File) (t : entry.Traced Cid Path Block) : Plan :=
  match t with
  | entry.TString k v => StartOnly [trace.WithAttributes [attribute.String k v]]
  | entry.TInt k v => StartOnly [trace.WithAttributes [attribute.Int k v]]
  | entry.TPath p => Guarded (Some (attribute.String "path" (ident.ToString p)))
  | entry.TCid c => Guarded (Some (attribute.String "cid" (ident.ToString c)))
  | entry.TCidList cs =>
      Guarded (Some (attribute.String "cids" (summary.rendered ident.ToString cs)))
  | entry.TBlock b =>
      Guarded (Some (attribute.String "block" (ident.ToString (ident.BlockCid b))))
  | entry.TBlockList bs =>
      match f, bs with
      | entry.part_000, [] => Guarded None
      | _, _ =>
          Guarded (Some (attribute.String "blocks"
                           (summary.rendered
                              (fun b => ident.ToString (ident.BlockCid b)) bs)))
      end
  end.

(** The log of a plan. *)
Definition calls_of (pl : Plan) (ctx : Ctx) (spanName : string) (b : W)
  : list (trace.Call Ctx SpanH) :=
  match pl with
  | StartOnly opts => [trace.CallStart "" ctx spanName opts]
  | Guarded kv =>
      let span := trace.started_span "" ctx spanName [] b in
      trace.CallStart "" ctx spanName [] :: trace.CallIsRecording span ::
      (if trace.recording_after_start "" ctx spanName [] b
       then match kv with
            | Some kv => [trace.CallSetAttributes span [kv]]
            | None => []
            end
       else [])
  end.

End Plan.

Arguments Plan : clear implicits.

End plan.

(* ------------------------------------------------------------------ *)
(** ** The standalone constructor behind each helper *)

Module standalone.
Section Standalone.
Context {Cid Path Block : Type}
        `{!ident.Stringer Cid} `{!ident.Stringer Path} `{!ident.Block Block Cid}.

(** The constructor of [tracing.go] for the value a helper is given; the
    string and int helpers have none. *)
Definition constructor (t : entry.Traced Cid Path Block) : option attribute.KeyValue :=
  match t with
  | entry.TString _ _ => None
  | entry.TInt _ _ => None
  | entry.TPath p => Some (Tracing.PathAttribute p)
  | entry.TCid c => Some (Tracing.CidAttribute c)
  | entry.TCidList cs => Tracing.CidListAttribute cs
  | entry.TBlock b => Some (Tracing.BlockAttribute b)
  | entry.TBlockList bs => Tracing.BlockListAttribute bs
  end.

(** The one input on which the two files part: the block-list helper of
    [part_000] given no block. *)
Definition parts_ways (f : entry.File) (t : entry.Traced Cid Path Block) : bool :=
  match f, t with
  | entry.part_000, entry.TBlockList [] => true
  | _, _ => false
  end.

(** The five helpers that ask whether the span records before they attach
    anything: all but the string and int helpers. *)
Definition guarded (t : entry.Traced Cid Path Block) : bool :=
  match t with
  | entry.TString _ _ | entry.TInt _ _ => false
  | _ => true
  end.

(** The helpers whose value is of an interface type ([path.Path],
    [blocks.Block]) and so could be nil in Go. *)
Definition takes_interface (t : entry.Traced Cid Path Block) : bool :=
  match t with
  | entry.TPath _ | entry.TBlock _ | entry.TBlockList _ => true
  | _ => false
  end.

End Standalone.
End standalone.

(* ------------------------------------------------------------------ *)
(** * Properties *)

(** ** Strings and formatting *)

Lemma append_empty_r (s : string) : s +++ "" = s.
Proof. induction s as [|c s IH]; simpl; [reflexivity | now rewrite IH]. Qed.

Lemma append_assoc (a b c : string) : (a +++ b) +++ c = a +++ b +++ c.
Proof. induction a as [|x a IH]; simpl; [reflexivity | now rewrite IH]. Qed.

Lemma Sprintf_span_name (c o : string) :
  fmt.Sprintf "%s.%s" [fmt.AString c; fmt.AString o] = c +++ "." +++ o.
Proof. cbn. now rewrite append_empty_r. Qed.

Lemma Sprintf_more (z : Z) :
  fmt.Sprintf " and %d more" [fmt.AInt z] = " and " +++ fmt.itoa z +++ " more".
Proof. reflexivity. Qed.

Lemma Join_comma (items : list string) :
  strings.Join items "," = spec.comma_joined items.
Proof.
  destruct items as [|s rest]; [reflexivity|].
  revert s. induction rest as [|t rest IH]; intros s; [reflexivity|].
  specialize (IH t). cbn [strings.Join strings.join_tail spec.comma_joined] in *.
  destruct rest as [|u rest].
  - cbn. now rewrite append_empty_r.
  - rewrite <- IH. reflexivity.
Qed.

Example itoa_examples :
  fmt.itoa 0 = "0"%string /\ fmt.itoa 1 = "1"%string /\ fmt.itoa 97 = "97"%string
  /\ fmt.itoa (-12) = "-12"%string.
Proof. repeat split. Qed.

(** ** Go's [int] *)

Lemma wrap_in_range (z : Z) : GoInt.in_range z -> GoInt.wrap z = z.
Proof.
  unfold GoInt.in_range, GoInt.wrap, GoInt.MinInt, GoInt.MaxInt. intros Hz.
  rewrite Z.mod_small; lia.
Qed.

Lemma len_nonneg {A : Type} (s : list A) : 0 <= GoInt.len s.
Proof. unfold GoInt.len. lia. Qed.

(** ** The fill loop *)

Section FillLoop.
Context {A : Type} (f : A -> string) (xs : list A).

Local Abbreviation fill_body := (summary.fill_body f xs).

Lemma index_in_range (i : nat) (x : A) :
  xs !! i = Some x -> slice.index xs (Z.of_nat i) = Some x.
Proof.
  intros Hx. unfold slice.index, GoInt.len.
  pose proof (lookup_lt_Some _ _ _ Hx) as Hlt.
  destruct (Z.ltb_spec (Z.of_nat i) 0); [lia|].
  destruct (Z.leb_spec (Z.of_nat (length xs)) (Z.of_nat i)); [lia|].
  cbn. now rewrite Nat2Z.id.
Qed.

Lemma assign_in_range (cids : list string) (i : nat) (s : string) :
  (i < length cids)%nat ->
  slice.assign cids (Z.of_nat i) s = Some (<[i := s]> cids).
Proof.
  intros Hlt. unfold slice.assign, GoInt.len.
  destruct (Z.ltb_spec (Z.of_nat i) 0); [lia|].
  destruct (Z.leb_spec (Z.of_nat (length cids)) (Z.of_nat i)); [lia|].
  cbn. now rewrite Nat2Z.id.
Qed.

(** Invariant of the loop: before iteration [k], the first [k] slots hold
    the strings of the first [k] items and the rest are still empty. *)
Lemma for_indices_fill (j : nat) :
  forall k : nat,
    (k + j <= length xs)%nat ->
    slice.for_indices fill_body (seq k j)
      (map f (take k xs) ++ replicate j EmptyString)
    = Some (map f (take (k + j) xs)).
Proof.
  induction j as [|j IH]; intros k Hk.
  - cbn. now rewrite Nat.add_0_r, app_nil_r.
  - destruct (lookup_lt_is_Some_2 xs k) as [x Hx]; [lia|].
    cbn [seq slice.for_indices]. unfold summary.fill_body at 1.
    rewrite (index_in_range k x Hx).
    assert (Hlen : length (map f (take k xs)) = k).
    { rewrite length_map, length_take. lia. }
    rewrite assign_in_range by (rewrite length_app, Hlen; cbn; lia).
    rewrite insert_app_r_alt by lia.
    rewrite Hlen, Nat.sub_diag. cbn [replicate].
    change (<[0%nat := f x]> (EmptyString :: replicate j EmptyString))
      with (f x :: replicate j EmptyString).
    replace (map f (take k xs) ++ f x :: replicate j EmptyString)
      with (map f (take (S k) xs) ++ replicate j EmptyString).
    + rewrite IH by lia. do 3 f_equal. lia.
    + rewrite (take_S_r _ _ _ Hx), map_app, <- app_assoc. reflexivity.
Qed.

Lemma for_range_fill (m : nat) :
  (m <= length xs)%nat ->
  slice.for_range (replicate m EmptyString) fill_body (replicate m EmptyString)
  = Some (map f (take m xs)).
Proof.
  intros Hm. unfold slice.for_range. rewrite length_replicate.
  exact (for_indices_fill m 0%nat Hm).
Qed.

Lemma fill_and_join_shown :
  xs <> [] -> summary.fill_and_join f xs = Some (summary.shown f xs).
Proof.
  intros Hne. unfold summary.fill_and_join, summary.shown, GoInt.len.
  assert (Hpos : (0 < length xs)%nat) by (destruct xs; [congruence | cbn; lia]).
  cbv zeta.
  destruct (Z.gtb_spec 3 (Z.of_nat (length xs))) as [Hsmall|Hbig].
  - (* fewer than three items: all of them are shown *)
    unfold slice.make_strings.
    destruct (Z.ltb_spec (Z.of_nat (length xs)) 0); [lia|].
    rewrite Nat2Z.id, for_range_fill by lia.
    rewrite Z.ltb_irrefl, Join_comma.
    replace (Nat.min 3 (length xs)) with (length xs) by lia.
    destruct (Nat.ltb_spec 3 (length xs)); [lia|].
    now rewrite append_empty_r.
  - unfold slice.make_strings. cbn [Z.ltb Z.compare Z.to_nat].
    change (Pos.to_nat 3) with 3%nat.
    rewrite for_range_fill by lia.
    rewrite Join_comma, Sprintf_more.
    replace (Nat.min 3 (length xs)) with 3%nat by lia.
    destruct (Z.ltb_spec 3 (Z.of_nat (length xs)));
      destruct (Nat.ltb_spec 3 (length xs)); try lia; [reflexivity|].
    now rewrite append_empty_r.
Qed.

Lemma len_nonempty : xs <> [] -> (GoInt.len xs =? 0) = false.
Proof.
  intros Hne. unfold GoInt.len. destruct xs; [congruence|].
  apply Z.eqb_neq. cbn [length]. lia.
Qed.

Lemma list_value_shown :
  xs <> [] -> summary.list_value f xs = Some (summary.shown f xs).
Proof.
  intros Hne. unfold summary.list_value.
  now rewrite len_nonempty, fill_and_join_shown.
Qed.

Lemma list_value_rendered : summary.list_value f xs = Some (summary.rendered f xs).
Proof.
  destruct (decide (xs = [])) as [->|Hne]; [reflexivity|].
  rewrite list_value_shown by assumption.
  unfold summary.rendered. destruct xs; [congruence | reflexivity].
Qed.

End FillLoop.

(** The closed form depends on the items only through their strings. *)
Lemma shown_map {A B : Type} (f : B -> string) (g : A -> B) (xs : list A) :
  summary.shown (fun x => f (g x)) xs = summary.shown f (map g xs).
Proof.
  unfold summary.shown, GoInt.len.
  rewrite !length_map, <- (fmap_take g).
  change (g <$> take (Nat.min 3 (length xs)) xs)
    with (map g (take (Nat.min 3 (length xs)) xs)).
  now rewrite map_map.
Qed.

Lemma rendered_map {A B : Type} (f : B -> string) (g : A -> B) (xs : list A) :
  summary.rendered (fun x => f (g x)) xs = summary.rendered f (map g xs).
Proof.
  destruct xs as [|x xs']; [reflexivity|].
  exact (shown_map f g (x :: xs')).
Qed.

(** For a list whose length fits an [int], the subtraction does not wrap
    and the closed form is the specification's summary. *)
Lemma rendered_summarize {A : Type} (f : A -> string) (xs : list A) :
  GoInt.len xs <= GoInt.MaxInt ->
  summary.rendered f xs = spec.summarize (map f xs).
Proof.
  intros Hfit. destruct xs as [|x xs']; [reflexivity|].
  set (l := x :: xs') in *.
  change (summary.rendered f l) with (summary.shown f l).
  change (spec.summarize (map f l))
    with (let shown := Nat.min 3 (length (map f l)) in
          spec.comma_joined (take shown (map f l)) +++
          (if (shown <? length (map f l))%nat
           then spec.more (length (map f l) - shown) else EmptyString)).
  cbv zeta. unfold summary.shown.
  rewrite length_map, <- (fmap_take f).
  change (f <$> take (Nat.min 3 (length l)) l)
    with (map f (take (Nat.min 3 (length l)) l)).
  destruct (Nat.ltb_spec 3 (length l)) as [Hbig|Hsmall].
  - replace (Nat.min 3 (length l)) with 3%nat by lia.
    destruct (Nat.ltb_spec 3 (length l)); [|lia].
    unfold spec.more, GoInt.sub. rewrite wrap_in_range.
    + unfold GoInt.len.
      replace (Z.of_nat (length l) - 3) with (Z.of_nat (length l - 3)) by lia.
      reflexivity.
    + unfold GoInt.in_range, GoInt.MinInt, GoInt.MaxInt, GoInt.len in *. lia.
  - replace (Nat.min 3 (length l)) with (length l) by lia.
    now rewrite Nat.ltb_irrefl.
Qed.

Lemma comma_joined_shapes (a b c : string) :
  spec.comma_joined [a] = a
  /\ spec.comma_joined [a; b] = a +++ "," +++ b
  /\ spec.comma_joined [a; b; c] = a +++ "," +++ b +++ "," +++ c.
Proof. repeat split. Qed.

(** ** The attribute constructors of [src/tracing.go] *)

Section Constructors.
Context {Cid Path Block : Type}
        `{!ident.Stringer Cid} `{!ident.Stringer Path} `{!ident.Block Block Cid}.

(** The string of a block: the string of its cid. *)
Local Abbreviation block_string := (fun b : Block => ident.ToString (ident.BlockCid b)).

Lemma CidListAttribute_rendered (cs : list Cid) :
  Tracing.CidListAttribute cs
  = Some (attribute.String "cids" (summary.rendered ident.ToString cs)).
Proof.
  change (Tracing.CidListAttribute cs)
    with (value <-? summary.list_value ident.ToString cs;
          Some (attribute.String "cids" value)).
  now rewrite list_value_rendered.
Qed.

Lemma BlockListAttribute_rendered (bs : list Block) :
  Tracing.BlockListAttribute bs
  = Some (attribute.String "blocks" (summary.rendered block_string bs)).
Proof.
  change (Tracing.BlockListAttribute bs)
    with (value <-? summary.list_value block_string bs;
          Some (attribute.String "blocks" value)).
  now rewrite list_value_rendered.
Qed.

(** The list constructors refine the specification's summary. *)
Lemma CidListAttribute_summarize (cs : list Cid) :
  GoInt.len cs <= GoInt.MaxInt ->
  Tracing.CidListAttribute cs
  = Some (attribute.String "cids" (spec.summarize (map ident.ToString cs))).
Proof. intros. now rewrite CidListAttribute_rendered, rendered_summarize. Qed.

Lemma BlockListAttribute_summarize (bs : list Block) :
  GoInt.len bs <= GoInt.MaxInt ->
  Tracing.BlockListAttribute bs
  = Some (attribute.String "blocks" (spec.summarize (map block_string bs))).
Proof. intros. now rewrite BlockListAttribute_rendered, rendered_summarize. Qed.

Lemma summarize_more_than_three (s0 s1 s2 : string) (rest : list string) :
  rest <> [] ->
  spec.summarize (s0 :: s1 :: s2 :: rest)
  = s0 +++ "," +++ s1 +++ "," +++ s2 +++
    " and " +++ fmt.itoa (Z.of_nat (length rest)) +++ " more".
Proof.
  intros Hrest. destruct rest as [|s3 rest]; [congruence|].
  unfold spec.summarize, spec.more.
  cbn [length Nat.min take firstn spec.comma_joined Nat.ltb Nat.leb Nat.sub].
  rewrite !append_assoc. reflexivity.
Qed.

Lemma summarize_at_most_three (items : list string) :
  (1 <= length items <= 3)%nat ->
  spec.summarize items = spec.comma_joined items.
Proof.
  intros Hn. unfold spec.summarize.
  destruct items as [|s0 rest] eqn:E; [cbn in Hn; lia|]. rewrite <- E in Hn |- *.
  replace (Nat.min 3 (length items)) with (length items) by lia.
  now rewrite Nat.ltb_irrefl, firstn_all, append_empty_r.
Qed.

Lemma len_fits_small {A : Type} (xs : list A) :
  (length xs <= 3)%nat -> GoInt.len xs <= GoInt.MaxInt.
Proof. unfold GoInt.len, GoInt.MaxInt. lia. Qed.

(** C3: a list of more than three items is summarized as the canonical
    strings of its first three items, joined by commas with no whitespace
    around them, followed by [" and N more"] with [N] the number of items
    beyond the third; for a list of blocks the canonical string of an item
    is the string of the block's cid.  (The lists are Go slices: their
    length fits an [int].) *)
Theorem list_attribute_more_than_three :
  (forall (cs : list Cid) (c0 c1 c2 : Cid),
      (3 < length cs)%nat -> GoInt.len cs <= GoInt.MaxInt ->
      take 3 cs = [c0; c1; c2] ->
      Tracing.CidListAttribute cs
      = Some (attribute.String "cids"
                (ident.ToString c0 +++ "," +++ ident.ToString c1 +++ "," +++
                 ident.ToString c2 +++
                 " and " +++ fmt.itoa (Z.of_nat (length cs - 3)) +++ " more")))
  /\
  (forall (bs : list Block) (b0 b1 b2 : Block),
      (3 < length bs)%nat -> GoInt.len bs <= GoInt.MaxInt ->
      take 3 bs = [b0; b1; b2] ->
      Tracing.BlockListAttribute bs
      = Some (attribute.String "blocks"
                (ident.ToString (ident.BlockCid b0) +++ "," +++
                 ident.ToString (ident.BlockCid b1) +++ "," +++
                 ident.ToString (ident.BlockCid b2) +++
                 " and " +++ fmt.itoa (Z.of_nat (length bs - 3)) +++ " more"))).
Proof.
  split.
  - intros cs c0 c1 c2 Hn Hfit Htake.
    rewrite CidListAttribute_summarize by assumption.
    destruct cs as [|x0 [|x1 [|x2 rest]]]; cbn in Hn; try lia.
    cbn in Htake. injection Htake as -> -> ->.
    cbn [map]. rewrite summarize_more_than_three.
    + cbn [length Nat.sub]. now rewrite length_map, Nat.sub_0_r.
    + destruct rest; [cbn in Hn; lia | discriminate].
  - intros bs b0 b1 b2 Hn Hfit Htake.
    rewrite BlockListAttribute_summarize by assumption.
    destruct bs as [|x0 [|x1 [|x2 rest]]]; cbn in Hn; try lia.
    cbn in Htake. injection Htake as -> -> ->.
    cbn [map]. rewrite summarize_more_than_three.
    + cbn [length Nat.sub]. now rewrite length_map, Nat.sub_0_r.
    + destruct rest; [cbn in Hn; lia | discriminate].
Qed.

(** C5: a list of one, two or three items is summarized as the canonical
    strings of all its items joined by commas, with no suffix; a list of
    one item gives that item's canonical string alone. *)
Theorem list_attribute_at_most_three :
  (forall cs : list Cid,
      (1 <= length cs <= 3)%nat ->
      Tracing.CidListAttribute cs
      = Some (attribute.String "cids" (spec.comma_joined (map ident.ToString cs))))
  /\
  (forall bs : list Block,
      (1 <= length bs <= 3)%nat ->
      Tracing.BlockListAttribute bs
      = Some (attribute.String "blocks"
                (spec.comma_joined (map (fun b => ident.ToString (ident.BlockCid b)) bs))))
  /\
  (forall c : Cid,
      Tracing.CidListAttribute [c] = Some (attribute.String "cids" (ident.ToString c)))
  /\
  (forall b : Block,
      Tracing.BlockListAttribute [b]
      = Some (attribute.String "blocks" (ident.ToString (ident.BlockCid b)))).
Proof.
  assert (Hc : forall cs : list Cid,
             (1 <= length cs <= 3)%nat ->
             Tracing.CidListAttribute cs
             = Some (attribute.String "cids" (spec.comma_joined (map ident.ToString cs)))).
  { intros cs Hn. rewrite CidListAttribute_summarize by (apply len_fits_small; lia).
    rewrite summarize_at_most_three by (now rewrite length_map). reflexivity. }
  assert (Hb : forall bs : list Block,
             (1 <= length bs <= 3)%nat ->
             Tracing.BlockListAttribute bs
             = Some (attribute.String "blocks" (spec.comma_joined (map block_string bs)))).
  { intros bs Hn. rewrite BlockListAttribute_summarize by (apply len_fits_small; lia).
    rewrite summarize_at_most_three by (now rewrite length_map). reflexivity. }
  split; [exact Hc | split; [exact Hb | split]].
  - intros c. rewrite Hc by (cbn; lia). reflexivity.
  - intros b. rewrite Hb by (cbn; lia). reflexivity.
Qed.


(** C9: the value of [BlockListAttribute bs] is the value of
    [CidListAttribute] on the cids of the blocks, in the same order; only
    the keys differ, ["blocks"] against ["cids"]. *)
Theorem block_list_value_is_cid_list_value (bs : list Block) :
  exists value : string,
    Tracing.BlockListAttribute bs = Some (attribute.String "blocks" value)
    /\ Tracing.CidListAttribute (map ident.BlockCid bs)
       = Some (attribute.String "cids" value).
Proof.
  exists (summary.rendered block_string bs). split.
  - apply BlockListAttribute_rendered.
  - rewrite CidListAttribute_rendered. do 2 f_equal.
    symmetry. exact (rendered_map ident.ToString ident.BlockCid bs).
Qed.

(** C10: the list code never indexes out of range.  In this embedding an
    index out of range makes [slice.index] and [slice.assign] return
    [None] and the constructor with them; for every input list, the loop
    reads only indices below [min(3, length)] and both constructors
    return. *)
Theorem list_attribute_never_panics (cs : list Cid) (bs : list Block) :
  (forall i : nat, (i < Nat.min 3 (length cs))%nat ->
                   is_Some (slice.index cs (Z.of_nat i)))
  /\ (forall i : nat, (i < Nat.min 3 (length bs))%nat ->
                      is_Some (slice.index bs (Z.of_nat i)))
  /\ is_Some (Tracing.CidListAttribute cs)
  /\ is_Some (Tracing.BlockListAttribute bs).
Proof.
  repeat split.
  - intros i Hi. destruct (lookup_lt_is_Some_2 cs i) as [x Hx]; [lia|].
    exists x. now apply index_in_range.
  - intros i Hi. destruct (lookup_lt_is_Some_2 bs i) as [x Hx]; [lia|].
    exists x. now apply index_in_range.
  - rewrite CidListAttribute_rendered. eauto.
  - rewrite BlockListAttribute_rendered. eauto.
Qed.

End Constructors.

(** ** The span helpers of both files *)

Section Helpers.
Context {Ctx SpanH W : Type} `{!trace.Backend Ctx SpanH W}.
Context {Cid Path Block : Type}
        `{!ident.Stringer Cid} `{!ident.Stringer Path} `{!ident.Block Block Cid}.

Local Abbreviation block_string := (fun b : Block => ident.ToString (ident.BlockCid b)).
Local Abbreviation M := (trace.M Ctx SpanH W).

Lemma Tracing_Span_name (ctx : Ctx) (c o : string) (opts : list trace.SpanStartOption) :
  Tracing.Span ctx c o opts = trace.Start "" ctx (c +++ "." +++ o) opts.
Proof. unfold Tracing.Span. now rewrite Sprintf_span_name. Qed.

Lemma Part000_Span_name (ctx : Ctx) (c o : string) (opts : list trace.SpanStartOption) :
  Part000.Span ctx c o opts = trace.Start "" ctx (c +++ "." +++ o) opts.
Proof. unfold Part000.Span. now rewrite Sprintf_span_name. Qed.

(** The inline copies of [part_000], with the shared computation named. *)
Lemma Part000_SpanWithCidListAttribute_unfold (ctx : Ctx) (c o : string) (cs : list Cid) :
  Part000.SpanWithCidListAttribute ctx c o cs
  = (do '(ctx, span) <- Part000.Span ctx c o [] ;;
     do recording <- trace.IsRecording span ;;
     (if recording : bool
      then do value <- trace.lift (summary.list_value ident.ToString cs) ;;
           trace.SetAttributes span [attribute.String "cids" value]
      else trace.ret tt) ;;;
     trace.ret (ctx, span)).
Proof. reflexivity. Qed.

Lemma Part000_SpanWithBlockListAttribute_unfold (ctx : Ctx) (c o : string) (bs : list Block) :
  Part000.SpanWithBlockListAttribute ctx c o bs
  = (do '(ctx, span) <- Part000.Span ctx c o [] ;;
     do recording <- trace.IsRecording span ;;
     (if recording : bool
      then if GoInt.len bs =? 0 then trace.ret tt
           else do value <- trace.lift (summary.fill_and_join block_string bs) ;;
                trace.SetAttributes span [attribute.String "blocks" value]
      else trace.ret tt) ;;;
     trace.ret (ctx, span)).
Proof. reflexivity. Qed.

Ltac unfold_helper :=
  unfold Tracing.SpanWithStringAttribute, Tracing.SpanWithIntAttribute,
    Tracing.SpanWithPathAttribute, Tracing.SpanWithCidAttribute,
    Tracing.SpanWithCidListAttribute, Tracing.SpanWithBlockAttribute,
    Tracing.SpanWithBlockListAttribute,
    Part000.SpanWithStringAttribute, Part000.SpanWithIntAttribute,
    Part000.SpanWithPathAttribute, Part000.SpanWithCidAttribute,
    Part000.SpanWithBlockAttribute,
    Tracing.PathAttribute, Tracing.BlockAttribute;
  rewrite ?Part000_SpanWithCidListAttribute_unfold,
    ?Part000_SpanWithBlockListAttribute_unfold;
  rewrite ?Tracing_Span_name, ?Part000_Span_name.

Ltac run_backend :=
  unfold plan.interp, trace.bind, trace.Start, trace.IsRecording,
    trace.SetAttributes, trace.ret, trace.lift, trace.record;
  cbn [trace.backend trace.calls fst snd].

(** Every helper runs as its normal form does. *)
Lemma SpanWith_plan (f : entry.File) (t : entry.Traced Cid Path Block)
      (ctx : Ctx) (c o : string) (w : trace.World Ctx SpanH W) :
  entry.SpanWith f t ctx c o w = plan.interp (plan.for_helper f t) ctx (c +++ "." +++ o) w.
Proof.
  destruct f, t; try (destruct bs as [|b0 bs']);
    cbn [entry.SpanWith plan.for_helper]; unfold_helper;
    try reflexivity; run_backend;
    destruct (trace.tracer_Start _ _ _ _ _) as [[ctx' span] b1];
    cbn [trace.backend trace.calls fst snd];
    destruct (trace.span_IsRecording _ _) as [[|] b2];
    cbn [trace.backend trace.calls fst snd];
    try reflexivity.
  - now rewrite CidListAttribute_rendered.
  - now rewrite BlockListAttribute_rendered.
  - now rewrite list_value_rendered.
  - rewrite len_nonempty, fill_and_join_shown by discriminate. reflexivity.
Qed.

Lemma interp_log (pl : plan.Plan) (ctx : Ctx) (name : string) (b : W) :
  trace.log (plan.interp pl ctx name) b = plan.calls_of pl ctx name b.
Proof.
  unfold trace.log, trace.run, plan.calls_of, trace.started_span,
    trace.recording_after_start.
  destruct pl as [opts|kv]; run_backend.
  - now destruct (trace.tracer_Start _ _ _ _ _) as [[ctx' span] b1].
  - destruct (trace.tracer_Start _ _ _ _ _) as [[ctx' span] b1]. cbn [fst snd].
    destruct (trace.span_IsRecording _ _) as [[|] b2]; cbn [fst];
      [destruct kv|]; reflexivity.
Qed.

Lemma SpanWith_log (f : entry.File) (t : entry.Traced Cid Path Block)
      (ctx : Ctx) (c o : string) (b : W) :
  trace.log (entry.SpanWith f t ctx c o) b
  = plan.calls_of (plan.for_helper f t) ctx (c +++ "." +++ o) b.
Proof.
  rewrite <- interp_log. unfold trace.log, trace.run. now rewrite SpanWith_plan.
Qed.

(** For a list that is not empty and whose length fits an [int], the
    value shown is the comma-joined strings of the first [min(3, n)] items
    followed by the suffix for the [n - 3] others, if any. *)
Lemma rendered_first_items {A : Type} (f : A -> string) (xs : list A) :
  xs <> [] -> GoInt.len xs <= GoInt.MaxInt ->
  summary.rendered f xs
  = spec.comma_joined (map f (take (Nat.min 3 (length xs)) xs)) +++
    (if (3 <? length xs)%nat then spec.more (length xs - 3) else EmptyString).
Proof.
  intros Hne Hfit.
  assert (Hr : summary.rendered f xs = summary.shown f xs)
    by (destruct xs; [congruence | reflexivity]).
  rewrite Hr. unfold summary.shown. f_equal.
  destruct (Nat.ltb_spec 3 (length xs)) as [Hbig|Hsmall]; [|reflexivity].
  unfold spec.more, GoInt.sub. rewrite wrap_in_range.
  - unfold GoInt.len.
    replace (Z.of_nat (length xs) - 3) with (Z.of_nat (length xs - 3)) by lia.
    reflexivity.
  - unfold GoInt.in_range, GoInt.MinInt, GoInt.MaxInt, GoInt.len in *. lia.
Qed.

(** C4: every span-starting operation of both files starts exactly one
    span, and the name it passes to the backend is the component name, a
    dot and the operation name, unchanged. *)
Theorem span_name_is_component_dot_operation
    (f : entry.File) (ctx : Ctx) (c o : string) (b : W) :
  (forall opts : list trace.SpanStartOption,
      trace.log (entry.SpanOf f ctx c o opts) b
      = [trace.CallStart "" ctx (c +++ "." +++ o) opts])
  /\
  (forall t : entry.Traced Cid Path Block,
      exists rest,
        trace.log (entry.SpanWith f t ctx c o) b
        = trace.CallStart "" ctx (c +++ "." +++ o) (entry.start_options t) :: rest
        /\ trace.started_names rest = []).
Proof.
  split.
  - intros opts.
    destruct f; cbn [entry.SpanOf];
      rewrite ?Tracing_Span_name, ?Part000_Span_name;
      exact (interp_log (plan.StartOnly opts) ctx _ b).
  - intros t. rewrite SpanWith_log.
    destruct f, t; try (destruct bs as [|b0 bs']);
      cbn [plan.for_helper plan.calls_of entry.start_options];
      eexists; (split; [reflexivity|]);
      try reflexivity;
      destruct (trace.recording_after_start _ _ _ _ _); reflexivity.
Qed.

Lemma guarded_plan (f : entry.File) (t : entry.Traced Cid Path Block) :
  standalone.guarded t = true -> exists kv, plan.for_helper f t = plan.Guarded kv.
Proof.
  destruct f, t; try discriminate; intros _;
    try (destruct bs as [|b0 bs']); cbn [plan.for_helper]; eauto.
Qed.

Lemma interp_not_recording (kv : option attribute.KeyValue) (ctx : Ctx) (name : string) (b : W) :
  trace.recording_after_start "" ctx name [] b = false ->
  trace.run (plan.interp (plan.Guarded kv) ctx name) b
  = trace.run (plan.interp (plan.Guarded None) ctx name) b.
Proof.
  unfold trace.recording_after_start, trace.run. run_backend.
  destruct (trace.tracer_Start _ _ _ _ _) as [[ctx' span] b1].
  cbn [trace.backend trace.calls fst snd].
  destruct (trace.span_IsRecording _ _) as [r b2]. cbn [fst].
  intros ->. reflexivity.
Qed.

(** C1, as the code has it.  The path, cid, cid-list, block and block-list
    helpers, on a span that is not recording: their only calls are [Start],
    with no option, and [IsRecording]; [SetAttributes] is not called, no
    attribute reaches the backend, and the whole run (what is returned, the
    backend's state, the calls) is the same whatever value the helper was
    given, so that nothing of the value or of an attribute built from it
    can be observed.  The string and int helpers, whether the span records
    or not: their only call is [Start], and it carries the attribute, built
    from the caller's key and value, as a start option. *)
Theorem not_recording_sets_no_attribute :
  (forall (f : entry.File) (t t' : entry.Traced Cid Path Block)
          (ctx : Ctx) (c o : string) (b : W),
      standalone.guarded t = true -> standalone.guarded t' = true ->
      trace.recording_after_start "" ctx (c +++ "." +++ o) [] b = false ->
      trace.log (entry.SpanWith f t ctx c o) b
      = [trace.CallStart "" ctx (c +++ "." +++ o) [];
         trace.CallIsRecording (trace.started_span "" ctx (c +++ "." +++ o) [] b)]
      /\ entry.no_attribute_work f t ctx c o b
      /\ trace.run (entry.SpanWith f t ctx c o) b
         = trace.run (entry.SpanWith f t' ctx c o) b)
  /\
  (forall (f : entry.File) (k v : string) (n : Z) (ctx : Ctx) (c o : string) (b : W),
      trace.log (entry.SpanWith f (entry.TString k v : entry.Traced Cid Path Block) ctx c o) b
      = [trace.CallStart "" ctx (c +++ "." +++ o)
           [trace.WithAttributes [attribute.String k v]]]
      /\ trace.log (entry.SpanWith f (entry.TInt k n : entry.Traced Cid Path Block) ctx c o) b
         = [trace.CallStart "" ctx (c +++ "." +++ o)
              [trace.WithAttributes [attribute.Int k n]]]).
Proof.
  split.
  - intros f t t' ctx c o b Ht Ht' Hrec.
    destruct (guarded_plan f t Ht) as [kv Hkv].
    destruct (guarded_plan f t' Ht') as [kv' Hkv'].
    assert (Hlog : trace.log (entry.SpanWith f t ctx c o) b
                   = [trace.CallStart "" ctx (c +++ "." +++ o) [];
                      trace.CallIsRecording
                        (trace.started_span "" ctx (c +++ "." +++ o) [] b)]).
    { rewrite SpanWith_log, Hkv. cbn [plan.calls_of]. now rewrite Hrec. }
    split; [exact Hlog|]. split.
    + unfold entry.no_attribute_work. rewrite Hlog. split; reflexivity.
    + unfold trace.run. rewrite !SpanWith_plan, Hkv, Hkv'.
      change (trace.run (plan.interp (plan.Guarded kv) ctx (c +++ "." +++ o)) b
              = trace.run (plan.interp (plan.Guarded kv') ctx (c +++ "." +++ o)) b).
      now rewrite (interp_not_recording kv), (interp_not_recording kv').
  - intros f k v n ctx c o b. rewrite !SpanWith_log. destruct f; split; reflexivity.
Qed.

(** On a recording span the guarded helpers call [SetAttributes] once,
    with the one attribute of their normal form. *)
Lemma recording_sets_attribute
    (f : entry.File) (t : entry.Traced Cid Path Block)
    (ctx : Ctx) (c o : string) (b : W) (kv : attribute.KeyValue) :
  plan.for_helper f t = plan.Guarded (Some kv) ->
  trace.recording_after_start "" ctx (c +++ "." +++ o) [] b = true ->
  trace.set_attributes_calls (trace.log (entry.SpanWith f t ctx c o) b)
  = [(trace.started_span "" ctx (c +++ "." +++ o) [] b, [kv])].
Proof.
  intros Hplan Hrec. rewrite SpanWith_log, Hplan.
  cbn [plan.calls_of]. now rewrite Hrec.
Qed.

(** The empty list, where the code attaches it: both list helpers of
    [tracing.go] and the cid-list helper of [part_000] attach the literal
    ["empty list"] on a recording span. *)
Lemma empty_list_attribute (ctx : Ctx) (c o : string) (b : W) :
  trace.recording_after_start "" ctx (c +++ "." +++ o) [] b = true ->
  let span := trace.started_span "" ctx (c +++ "." +++ o) [] b in
  trace.set_attributes_calls (trace.log (Tracing.SpanWithCidListAttribute ctx c o (@nil Cid)) b)
  = [(span, [attribute.String "cids" "empty list"])]
  /\ trace.set_attributes_calls
       (trace.log (Tracing.SpanWithBlockListAttribute ctx c o (@nil Block)) b)
     = [(span, [attribute.String "blocks" "empty list"])]
  /\ trace.set_attributes_calls
       (trace.log (Part000.SpanWithCidListAttribute ctx c o (@nil Cid)) b)
     = [(span, [attribute.String "cids" "empty list"])].
Proof.
  intros Hrec span. repeat split.
  - exact (recording_sets_attribute entry.tracing_go (entry.TCidList []) ctx c o b _
             eq_refl Hrec).
  - exact (recording_sets_attribute entry.tracing_go (entry.TBlockList []) ctx c o b _
             eq_refl Hrec).
  - exact (recording_sets_attribute entry.part_000 (entry.TCidList []) ctx c o b _
             eq_refl Hrec).
Qed.

(** C2, where the code departs from it: given an empty list of blocks, the
    block-list helper of [part_000] starts the span and asks whether it
    records, and that is all: whatever the backend answers, it never calls
    [SetAttributes] and hands the backend no attribute. *)
Theorem part000_empty_block_list_sets_no_attribute (ctx : Ctx) (c o : string) (b : W) :
  trace.log (Part000.SpanWithBlockListAttribute ctx c o (@nil Block)) b
  = [trace.CallStart "" ctx (c +++ "." +++ o) [];
     trace.CallIsRecording (trace.started_span "" ctx (c +++ "." +++ o) [] b)]
  /\ trace.set_attributes_calls
       (trace.log (Part000.SpanWithBlockListAttribute ctx c o (@nil Block)) b) = []
  /\ trace.attributes_handed
       (trace.log (Part000.SpanWithBlockListAttribute ctx c o (@nil Block)) b) = [].
Proof.
  pose proof (SpanWith_log entry.part_000 (entry.TBlockList []) ctx c o b) as Hlog.
  cbn [entry.SpanWith plan.for_helper plan.calls_of] in Hlog.
  rewrite Hlog.
  destruct (trace.recording_after_start _ _ _ _ _); repeat split.
Qed.

(** C6: for a list that is not empty, the value is built from the first
    [min(3, n)] items of the list, in the order of the list: it is their
    canonical strings, comma-joined, followed by the suffix for the items
    not shown.  This holds of both constructors of [tracing.go] and of the
    inline code of the cid-list helper of [part_000].  (The lists are Go
    slices: their length fits an [int].) *)
Theorem list_attribute_renders_first_items_in_order :
  (forall cs : list Cid,
      cs <> [] -> GoInt.len cs <= GoInt.MaxInt ->
      Tracing.CidListAttribute cs
      = Some (attribute.String "cids"
                (spec.comma_joined
                   (map ident.ToString (take (Nat.min 3 (length cs)) cs)) +++
                 (if (3 <? length cs)%nat then spec.more (length cs - 3)
                  else EmptyString))))
  /\
  (forall bs : list Block,
      bs <> [] -> GoInt.len bs <= GoInt.MaxInt ->
      Tracing.BlockListAttribute bs
      = Some (attribute.String "blocks"
                (spec.comma_joined
                   (map (fun b => ident.ToString (ident.BlockCid b))
                        (take (Nat.min 3 (length bs)) bs)) +++
                 (if (3 <? length bs)%nat then spec.more (length bs - 3)
                  else EmptyString))))
  /\
  (forall (ctx : Ctx) (c o : string) (b : W) (cs : list Cid),
      cs <> [] -> GoInt.len cs <= GoInt.MaxInt ->
      trace.recording_after_start "" ctx (c +++ "." +++ o) [] b = true ->
      trace.set_attributes_calls
        (trace.log (Part000.SpanWithCidListAttribute ctx c o cs) b)
      = [(trace.started_span "" ctx (c +++ "." +++ o) [] b,
          [attribute.String "cids"
             (spec.comma_joined
                (map ident.ToString (take (Nat.min 3 (length cs)) cs)) +++
              (if (3 <? length cs)%nat then spec.more (length cs - 3)
               else EmptyString))])]).
Proof.
  split; [|split].
  - intros cs Hne Hfit.
    now rewrite CidListAttribute_rendered, rendered_first_items.
  - intros bs Hne Hfit.
    now rewrite BlockListAttribute_rendered, rendered_first_items.
  - intros ctx c o b cs Hne Hfit Hrec.
    rewrite <- (rendered_first_items ident.ToString cs Hne Hfit).
    exact (recording_sets_attribute entry.part_000 (entry.TCidList cs) ctx c o b _
             eq_refl Hrec).
Qed.

(** The cid-list helpers of the two files agree on every input, in every
    world; the block-list helpers agree on every list that is not empty. *)
Lemma cid_list_helpers_agree (ctx : Ctx) (c o : string) (cs : list Cid)
      (w : trace.World Ctx SpanH W) :
  Tracing.SpanWithCidListAttribute ctx c o cs w
  = Part000.SpanWithCidListAttribute ctx c o cs w.
Proof.
  change (entry.SpanWith entry.tracing_go (entry.TCidList cs) ctx c o w
          = entry.SpanWith entry.part_000 (entry.TCidList cs) ctx c o w).
  now rewrite !SpanWith_plan.
Qed.

Lemma block_list_helpers_agree_nonempty (ctx : Ctx) (c o : string) (bs : list Block)
      (w : trace.World Ctx SpanH W) :
  bs <> [] ->
  Tracing.SpanWithBlockListAttribute ctx c o bs w
  = Part000.SpanWithBlockListAttribute ctx c o bs w.
Proof.
  intros Hne.
  change (entry.SpanWith entry.tracing_go (entry.TBlockList bs) ctx c o w
          = entry.SpanWith entry.part_000 (entry.TBlockList bs) ctx c o w).
  rewrite !SpanWith_plan.
  destruct bs; [congruence | reflexivity].
Qed.

End Helpers.

(** ** The properties on the recording stub *)

Section OnTheStub.

Local Abbreviation Traced := (entry.Traced stub.Cid stub.Path stub.Block).
Local Abbreviation four_cids := [stub.cidA; stub.cidB; stub.cidC; stub.cidD].
Local Abbreviation four_blocks :=
  [stub.blk stub.cidA; stub.blk stub.cidB; stub.blk stub.cidC; stub.blk stub.cidD].

(** The end-to-end example of the specification: four cids on a recording
    span give one span named ["Bitswap.GetBlocks"] with the one attribute
    ["cids"]. *)
Example end_to_end_four_cids :
  stub.spans
    (trace.backend
       (snd (trace.run (Tracing.SpanWithCidListAttribute None "Bitswap" "GetBlocks" four_cids)
                       stub.sampled)))
  = [stub.mkSpanRecord "Bitswap.GetBlocks" true
       [attribute.String "cids" "QmA,QmB,QmC and 1 more"]].
Proof. vm_compute. reflexivity. Qed.

Example summary_lengths :
  Tracing.CidListAttribute (@nil stub.Cid) = Some (attribute.String "cids" "empty list")
  /\ Tracing.CidListAttribute [stub.cidA] = Some (attribute.String "cids" "QmA")
  /\ Tracing.CidListAttribute [stub.cidA; stub.cidB; stub.cidC]
     = Some (attribute.String "cids" "QmA,QmB,QmC")
  /\ Tracing.CidListAttribute four_cids
     = Some (attribute.String "cids" "QmA,QmB,QmC and 1 more")
  /\ Tracing.CidListAttribute ([stub.cidA; stub.cidB; stub.cidC] ++ repeat stub.cidD 97)
     = Some (attribute.String "cids" "QmA,QmB,QmC and 97 more")
  /\ Tracing.BlockListAttribute four_blocks
     = Some (attribute.String "blocks" "QmA,QmB,QmC and 1 more").
Proof. vm_compute. repeat split. Qed.

Lemma not_recording_sets_no_attribute_witness :
  (standalone.guarded (entry.TCidList four_cids : Traced) = true
   /\ standalone.guarded (entry.TPath (stub.mkPath "/ipfs/QmA") : Traced) = true
   /\ trace.recording_after_start "" None ("Bitswap" +++ "." +++ "GetBlocks") []
        stub.unsampled = false)
  /\ trace.log (entry.SpanWith entry.tracing_go (entry.TCidList four_cids : Traced)
                  None "Bitswap" "GetBlocks") stub.unsampled
     = [trace.CallStart "" None "Bitswap.GetBlocks" []; trace.CallIsRecording 0%nat]
  /\ entry.no_attribute_work entry.tracing_go (entry.TCidList four_cids : Traced)
       None "Bitswap" "GetBlocks" stub.unsampled
  /\ trace.run (entry.SpanWith entry.tracing_go (entry.TCidList four_cids : Traced)
                  None "Bitswap" "GetBlocks") stub.unsampled
     = trace.run (entry.SpanWith entry.tracing_go
                    (entry.TPath (stub.mkPath "/ipfs/QmA") : Traced)
                    None "Bitswap" "GetBlocks") stub.unsampled.
Proof.
  split; [repeat split|].
  refine (proj1 not_recording_sets_no_attribute entry.tracing_go
            (entry.TCidList four_cids : Traced)
            (entry.TPath (stub.mkPath "/ipfs/QmA") : Traced)
            None "Bitswap"%string "GetBlocks"%string stub.unsampled _ _ _);
    reflexivity.
Defined.

(** C1 as stated fails for the string helper: on a span that is not
    recording, the attribute has been built and is handed to the backend
    with the start options. *)
Lemma string_helper_builds_attribute_when_not_recording :
  ~ (trace.recording_after_start "" None "Bitswap.GetBlocks"
       (entry.start_options (entry.TString "k" "v" : Traced)) stub.unsampled = false ->
     entry.no_attribute_work entry.tracing_go (entry.TString "k" "v" : Traced)
       None "Bitswap" "GetBlocks" stub.unsampled).
Proof.
  intros Hstated. destruct (Hstated eq_refl) as [_ Hnone].
  vm_compute in Hnone. discriminate Hnone.
Qed.

Lemma list_attribute_more_than_three_witness :
  ((3 < length four_cids)%nat /\ GoInt.len four_cids <= GoInt.MaxInt
   /\ take 3 four_cids = [stub.cidA; stub.cidB; stub.cidC])
  /\ Tracing.CidListAttribute four_cids
     = Some (attribute.String "cids" "QmA,QmB,QmC and 1 more")
  /\ Tracing.BlockListAttribute four_blocks
     = Some (attribute.String "blocks" "QmA,QmB,QmC and 1 more").
Proof.
  split; [repeat split; [cbn; lia | discriminate]|].
  split.
  - refine (proj1 list_attribute_more_than_three four_cids
              stub.cidA stub.cidB stub.cidC _ _ _);
      [cbn; lia | discriminate | reflexivity].
  - refine (proj2 list_attribute_more_than_three four_blocks
              (stub.blk stub.cidA) (stub.blk stub.cidB) (stub.blk stub.cidC) _ _ _);
      [cbn; lia | discriminate | reflexivity].
Defined.

Lemma list_attribute_at_most_three_witness :
  (1 <= length [stub.cidA; stub.cidB] <= 3)%nat
  /\ Tracing.CidListAttribute [stub.cidA; stub.cidB]
     = Some (attribute.String "cids" "QmA,QmB")
  /\ Tracing.BlockListAttribute [stub.blk stub.cidA; stub.blk stub.cidB]
     = Some (attribute.String "blocks" "QmA,QmB").
Proof.
  split; [cbn; lia|]. split.
  - refine (proj1 list_attribute_at_most_three [stub.cidA; stub.cidB] _). cbn; lia.
  - refine (proj1 (proj2 list_attribute_at_most_three)
              [stub.blk stub.cidA; stub.blk stub.cidB] _). cbn; lia.
Defined.

Lemma list_attribute_renders_first_items_in_order_witness :
  (four_cids <> [] /\ GoInt.len four_cids <= GoInt.MaxInt
   /\ trace.recording_after_start "" None ("Bitswap" +++ "." +++ "GetBlocks") []
        stub.sampled = true)
  /\ Tracing.CidListAttribute four_cids
     = Some (attribute.String "cids" "QmA,QmB,QmC and 1 more")
  /\ Tracing.BlockListAttribute four_blocks
     = Some (attribute.String "blocks" "QmA,QmB,QmC and 1 more")
  /\ trace.set_attributes_calls
       (trace.log (Part000.SpanWithCidListAttribute None "Bitswap" "GetBlocks" four_cids)
                  stub.sampled)
     = [(0%nat, [attribute.String "cids" "QmA,QmB,QmC and 1 more"])].
Proof.
  split; [repeat split; discriminate|].
  destruct (list_attribute_renders_first_items_in_order
              (Ctx:=stub.Ctx) (SpanH:=stub.SpanH) (W:=stub.State)
              (Cid:=stub.Cid) (Block:=stub.Block)) as (Hc & Hb & Hp).
  split; [|split].
  - refine (Hc four_cids _ _); discriminate.
  - refine (Hb four_blocks _ _); discriminate.
  - refine (Hp None "Bitswap"%string "GetBlocks"%string stub.sampled four_cids _ _ _);
      [discriminate | discriminate | reflexivity].
Defined.


Lemma list_attribute_never_panics_witness :
  (2 < Nat.min 3 (length four_cids))%nat
  /\ is_Some (slice.index four_cids (Z.of_nat 2))
  /\ is_Some (slice.index four_blocks (Z.of_nat 2))
  /\ is_Some (Tracing.CidListAttribute four_cids)
  /\ is_Some (Tracing.BlockListAttribute four_blocks).
Proof.
  destruct (list_attribute_never_panics four_cids four_blocks) as (Hc & Hb & Hcs & Hbs).
  split; [cbn; lia|].
  split; [apply (Hc 2%nat); cbn; lia|].
  split; [apply (Hb 2%nat); cbn; lia|].
  split; assumption.
Defined.

(** C2 on the stub: on a recording span and an empty list of blocks, the
    helper of [part_000] leaves the span without attribute. *)
Example part000_empty_block_list_on_the_stub :
  trace.recording_after_start "" None "Bitswap.GetBlocks" [] stub.sampled = true
  /\ stub.spans
       (trace.backend
          (snd (trace.run (Part000.SpanWithBlockListAttribute None "Bitswap" "GetBlocks"
                             (@nil stub.Block)) stub.sampled)))
     = [stub.mkSpanRecord "Bitswap.GetBlocks" true []].
Proof. vm_compute. split; reflexivity. Qed.

(** C8, where the two files part: on a recording span and an empty list
    of blocks, the helper of [tracing.go] attaches ["blocks"] with the
    value ["empty list"] and the helper of [part_000] attaches nothing. *)
Theorem block_list_helpers_differ_on_empty_list :
  trace.recording_after_start "" None "Bitswap.GetBlocks" [] stub.sampled = true
  /\ trace.set_attributes_calls
       (trace.log (Tracing.SpanWithBlockListAttribute None "Bitswap" "GetBlocks"
                     (@nil stub.Block)) stub.sampled)
     = [(0%nat, [attribute.String "blocks" "empty list"])]
  /\ trace.set_attributes_calls
       (trace.log (Part000.SpanWithBlockListAttribute None "Bitswap" "GetBlocks"
                     (@nil stub.Block)) stub.sampled)
     = []
  /\ trace.run (Tracing.SpanWithBlockListAttribute None "Bitswap" "GetBlocks"
                  (@nil stub.Block)) stub.sampled
     <> trace.run (Part000.SpanWithBlockListAttribute None "Bitswap" "GetBlocks"
                     (@nil stub.Block)) stub.sampled.
Proof.
  repeat split; try (vm_compute; reflexivity).
  vm_compute. discriminate.
Qed.

End OnTheStub.

(** ** What the helpers return and which calls they make *)

Section Protocol.
Context {Ctx SpanH W : Type} `{!trace.Backend Ctx SpanH W}.
Context {Cid Path Block : Type}
        `{!ident.Stringer Cid} `{!ident.Stringer Path} `{!ident.Block Block Cid}.

Lemma interp_result (pl : plan.Plan) (ctx : Ctx) (name : string) (b : W) :
  fst (trace.run (plan.interp pl ctx name) b)
  = Some (fst (trace.tracer_Start "" ctx name
                 (match pl with plan.StartOnly opts => opts | plan.Guarded _ => [] end) b)).
Proof.
  unfold trace.run, plan.interp, trace.bind, trace.Start, trace.IsRecording,
    trace.SetAttributes, trace.ret, trace.record.
  destruct pl as [opts|kv]; cbn [trace.backend trace.calls].
  - now destruct (trace.tracer_Start _ _ _ _ _) as [[ctx' span] b1].
  - destruct (trace.tracer_Start _ _ _ _ _) as [[ctx' span] b1].
    cbn [trace.backend trace.calls fst].
    destruct (trace.span_IsRecording _ _) as [[|] b2]; [destruct kv|]; reflexivity.
Qed.

Lemma plan_options (f : entry.File) (t : entry.Traced Cid Path Block) :
  match plan.for_helper f t with plan.StartOnly opts => opts | plan.Guarded _ => [] end
  = entry.start_options t.
Proof. destruct f, t; try reflexivity; destruct bs; reflexivity. Qed.

Lemma SpanOf_log (f : entry.File) (ctx : Ctx) (c o : string)
      (opts : list trace.SpanStartOption) (b : W) :
  trace.log (entry.SpanOf f ctx c o opts) b
  = [trace.CallStart "" ctx (c +++ "." +++ o) opts].
Proof.
  destruct f; cbn [entry.SpanOf];
    rewrite ?Tracing_Span_name, ?Part000_Span_name;
    exact (interp_log (plan.StartOnly opts) ctx _ b).
Qed.

(** What the helpers return.  [Span] and the string, int, cid and cid-list
    helpers never panic and return the context and the span that the
    backend's [Start] returned, as they are.  The path, block and
    block-list helpers, whose value is of an interface type, do so on every
    span that is not recording, and whatever they return, when they return,
    is what [Start] returned. *)
Theorem helpers_return_what_start_returns
    (f : entry.File) (ctx : Ctx) (c o : string) (b : W) :
  (forall opts : list trace.SpanStartOption,
      fst (trace.run (entry.SpanOf f ctx c o opts) b)
      = Some (fst (trace.tracer_Start "" ctx (c +++ "." +++ o) opts b)))
  /\
  (forall t : entry.Traced Cid Path Block,
      standalone.takes_interface t = false ->
      fst (trace.run (entry.SpanWith f t ctx c o) b)
      = Some (fst (trace.tracer_Start "" ctx (c +++ "." +++ o) (entry.start_options t) b)))
  /\
  (forall t : entry.Traced Cid Path Block,
      trace.recording_after_start "" ctx (c +++ "." +++ o) (entry.start_options t) b = false ->
      fst (trace.run (entry.SpanWith f t ctx c o) b)
      = Some (fst (trace.tracer_Start "" ctx (c +++ "." +++ o) (entry.start_options t) b)))
  /\
  (forall (t : entry.Traced Cid Path Block) (r : Ctx * SpanH),
      fst (trace.run (entry.SpanWith f t ctx c o) b) = Some r ->
      r = fst (trace.tracer_Start "" ctx (c +++ "." +++ o) (entry.start_options t) b)).
Proof.
  assert (Hall : forall t : entry.Traced Cid Path Block,
             fst (trace.run (entry.SpanWith f t ctx c o) b)
             = Some (fst (trace.tracer_Start "" ctx (c +++ "." +++ o)
                            (entry.start_options t) b))).
  { intros t. unfold trace.run. rewrite SpanWith_plan, <- plan_options with (f := f).
    exact (interp_result (plan.for_helper f t) ctx _ b). }
  split; [|split; [|split]].
  - intros opts.
    destruct f; cbn [entry.SpanOf];
      rewrite ?Tracing_Span_name, ?Part000_Span_name;
      exact (interp_result (plan.StartOnly opts) ctx _ b).
  - intros t _. apply Hall.
  - intros t _. apply Hall.
  - intros t r Hr. rewrite Hall in Hr. now injection Hr as <-.
Qed.

(** The calls a helper makes: one [Start]; then, on the span that [Start]
    returned and on no other, at most one [IsRecording] and at most one
    [SetAttributes], the latter with a single attribute and only when the
    span is recording. *)
Theorem helper_calls_target_the_returned_span
    (f : entry.File) (t : entry.Traced Cid Path Block)
    (ctx : Ctx) (c o : string) (b : W) (call : trace.Call Ctx SpanH) :
  In call (trace.log (entry.SpanWith f t ctx c o) b) ->
  let name := c +++ "." +++ o in
  let span := trace.started_span "" ctx name (entry.start_options t) b in
  call = trace.CallStart "" ctx name (entry.start_options t)
  \/ call = trace.CallIsRecording span
  \/ ((exists kv, call = trace.CallSetAttributes span [kv])
      /\ trace.recording_after_start "" ctx name (entry.start_options t) b = true).
Proof.
  rewrite SpanWith_log. intros Hin name span. subst name span.
  destruct f, t; try (destruct bs as [|b0 bs']);
    cbn [plan.for_helper plan.calls_of entry.start_options] in *;
    try (destruct (trace.recording_after_start _ _ _ _ _) eqn:Hrec);
    cbn [In] in Hin;
    repeat (destruct Hin as [<-|Hin]; [eauto 6|]); contradiction.
Qed.

(** The string and int helpers make one call, whatever the backend: [Start]
    with the single option [WithAttributes] holding the caller's key and
    value unchanged.  They never ask whether the span records. *)
Theorem string_and_int_helpers_only_start
    (f : entry.File) (ctx : Ctx) (c o k : string) (v : string) (n : Z) (b : W) :
  trace.log (entry.SpanWith f (entry.TString k v : entry.Traced Cid Path Block) ctx c o) b
  = [trace.CallStart "" ctx (c +++ "." +++ o)
       [trace.WithAttributes [attribute.mkKeyValue k (attribute.StringValue v)]]]
  /\
  trace.log (entry.SpanWith f (entry.TInt k n : entry.Traced Cid Path Block) ctx c o) b
  = [trace.CallStart "" ctx (c +++ "." +++ o)
       [trace.WithAttributes [attribute.mkKeyValue k (attribute.Int64Value n)]]].
Proof. rewrite !SpanWith_log. destruct f; split; reflexivity. Qed.

Lemma constructor_plan (f : entry.File) (t : entry.Traced Cid Path Block)
      (kv : attribute.KeyValue) :
  standalone.constructor t = Some kv ->
  standalone.parts_ways f t = false ->
  plan.for_helper f t = plan.Guarded (Some kv).
Proof.
  intros Hk Hp.
  destruct t; cbn [standalone.constructor plan.for_helper] in *;
    try discriminate;
    rewrite ?CidListAttribute_rendered, ?BlockListAttribute_rendered in Hk;
    injection Hk as <-; try reflexivity.
  destruct f, bs; cbn in Hp; try discriminate; reflexivity.
Qed.

(** On a recording span a guarded helper calls [SetAttributes] once, on the
    span it returns, with exactly the attribute that the standalone
    constructor of [tracing.go] builds for the same value; this holds of
    both files, the block-list helper of [part_000] given no block
    excepted. *)
Theorem helper_attaches_the_constructor_attribute
    (f : entry.File) (t : entry.Traced Cid Path Block)
    (ctx : Ctx) (c o : string) (b : W) (kv : attribute.KeyValue) :
  standalone.constructor t = Some kv ->
  standalone.parts_ways f t = false ->
  trace.recording_after_start "" ctx (c +++ "." +++ o) [] b = true ->
  trace.log (entry.SpanWith f t ctx c o) b
  = [trace.CallStart "" ctx (c +++ "." +++ o) [];
     trace.CallIsRecording (trace.started_span "" ctx (c +++ "." +++ o) [] b);
     trace.CallSetAttributes (trace.started_span "" ctx (c +++ "." +++ o) [] b) [kv]].
Proof.
  intros Hk Hp Hrec.
  rewrite SpanWith_log, (constructor_plan f t kv Hk Hp).
  cbn [plan.calls_of]. now rewrite Hrec.
Qed.

(** The two files agree on every helper, every input and every world, the
    block-list helper given no block excepted. *)
Theorem files_agree_except_on_no_block
    (t : entry.Traced Cid Path Block) (ctx : Ctx) (c o : string)
    (w : trace.World Ctx SpanH W) :
  standalone.parts_ways entry.part_000 t = false ->
  entry.SpanWith entry.tracing_go t ctx c o w = entry.SpanWith entry.part_000 t ctx c o w.
Proof.
  intros Hp. rewrite !SpanWith_plan.
  destruct t; try reflexivity.
  destruct bs; [discriminate Hp | reflexivity].
Qed.

End Protocol.

(** ** Span names *)

Lemma length_append (a b : string) :
  String.length (a +++ b) = (String.length a + String.length b)%nat.
Proof. induction a as [|x a IH]; cbn; [reflexivity | now rewrite IH]. Qed.

(** A name splits at its first dot: two names are equal only if the parts
    before the first dot and the parts after it are. *)
Lemma dot_split (c c' o o' : string) :
  ~ In "."%char (list_ascii_of_string c) ->
  ~ In "."%char (list_ascii_of_string c') ->
  c +++ "." +++ o = c' +++ "." +++ o' ->
  c = c' /\ o = o'.
Proof.
  revert c'. induction c as [|a c IH]; intros [|a' c'] Hc Hc' E; cbn in *.
  - injection E as ->. now split.
  - injection E as <- _. exfalso. apply Hc'. now left.
  - injection E as -> _. exfalso. apply Hc. now left.
  - injection E as -> E.
    destruct (IH c') as [-> ->]; auto.
Qed.

Section SpanNames.
Context {Ctx SpanH W : Type} `{!trace.Backend Ctx SpanH W}.

(** A span name is never empty: its length is the lengths of the component
    and of the operation name and one more, for the dot; with both names
    empty the span is named ["."]. *)
Theorem span_name_length
    (f : entry.File) (ctx : Ctx) (c o : string)
    (opts : list trace.SpanStartOption) (b : W) :
  exists name : string,
    trace.started_names (trace.log (entry.SpanOf f ctx c o opts) b) = [name]
    /\ String.length name = (String.length c + String.length o + 1)%nat
    /\ name <> EmptyString.
Proof.
  exists (c +++ "." +++ o). rewrite SpanOf_log. split; [reflexivity|].
  assert (Hlen : String.length (c +++ "." +++ o)
                 = (String.length c + String.length o + 1)%nat).
  { rewrite length_append. cbn [String.append String.length]. lia. }
  split; [exact Hlen|].
  intros E. rewrite E in Hlen. cbn in Hlen. lia.
Qed.

(** When component names hold no dot, the span name tells the component and
    the operation: two spans with the same name have the same component and
    the same operation name. *)
Theorem span_name_determines_component_and_operation
    (f f' : entry.File) (ctx ctx' : Ctx) (c c' o o' : string)
    (opts opts' : list trace.SpanStartOption) (b b' : W) :
  ~ In "."%char (list_ascii_of_string c) ->
  ~ In "."%char (list_ascii_of_string c') ->
  trace.started_names (trace.log (entry.SpanOf f ctx c o opts) b)
  = trace.started_names (trace.log (entry.SpanOf f' ctx' c' o' opts') b') ->
  c = c' /\ o = o'.
Proof.
  intros Hc Hc'. rewrite !SpanOf_log. cbn [trace.started_names flat_map app].
  intros E. injection E as E. now apply dot_split.
Qed.

(** Dots are not escaped: a component name with a dot in it gives the name
    that the part before the dot gives with the rest moved into the
    operation name. *)
Theorem span_name_does_not_escape_dots
    (f : entry.File) (ctx : Ctx) (x y z : string)
    (opts : list trace.SpanStartOption) (b : W) :
  trace.log (entry.SpanOf f ctx (x +++ "." +++ y) z opts) b
  = trace.log (entry.SpanOf f ctx x (y +++ "." +++ z) opts) b.
Proof.
  rewrite !SpanOf_log. now rewrite append_assoc.
Qed.

End SpanNames.

(** ** What a list attribute keeps of the list *)

Section Lossy.
Context {Cid Path Block : Type}
        `{!ident.Stringer Cid} `{!ident.Stringer Path} `{!ident.Block Block Cid}.

Lemma shown_keeps_length_and_first_three {A : Type} (f : A -> string) (xs ys : list A) :
  length xs = length ys ->
  map f (take 3 xs) = map f (take 3 ys) ->
  summary.rendered f xs = summary.rendered f ys.
Proof.
  intros Hlen Hfirst.
  destruct xs as [|x xs'], ys as [|y ys']; try discriminate; [reflexivity|].
  change (summary.shown f (x :: xs') = summary.shown f (y :: ys')).
  set (l := x :: xs') in *. set (l' := y :: ys') in *.
  unfold summary.shown, GoInt.len. rewrite <- Hlen. f_equal.
  assert (Htake : forall zs : list A,
             map f (take (Nat.min 3 (length l)) zs)
             = take (Nat.min 3 (length l)) (map f (take 3 zs))).
  { intros zs. rewrite <- (fmap_take f), take_take.
    replace (Nat.min (Nat.min 3 (length l)) 3) with (Nat.min 3 (length l)) by lia.
    reflexivity. }
  now rewrite !Htake, Hfirst.
Qed.

(** A list attribute keeps the length of the list and the canonical strings
    of its first three items, and nothing else: two lists of the same length
    whose first three items have the same strings give the same attribute. *)
Theorem list_attribute_keeps_length_and_first_three :
  (forall cs cs' : list Cid,
      length cs = length cs' ->
      map ident.ToString (take 3 cs) = map ident.ToString (take 3 cs') ->
      Tracing.CidListAttribute cs = Tracing.CidListAttribute cs')
  /\
  (forall bs bs' : list Block,
      length bs = length bs' ->
      map (fun b => ident.ToString (ident.BlockCid b)) (take 3 bs)
      = map (fun b => ident.ToString (ident.BlockCid b)) (take 3 bs') ->
      Tracing.BlockListAttribute bs = Tracing.BlockListAttribute bs').
Proof.
  split.
  - intros cs cs' Hlen Hfirst. rewrite !CidListAttribute_rendered.
    now rewrite (shown_keeps_length_and_first_three _ cs cs').
  - intros bs bs' Hlen Hfirst. rewrite !BlockListAttribute_rendered.
    now rewrite (shown_keeps_length_and_first_three _ bs bs').
Qed.

End Lossy.

(** ** The count in the suffix reads back *)

Section Count.
Context {Cid Path Block : Type}
        `{!ident.Stringer Cid} `{!ident.Stringer Path} `{!ident.Block Block Cid}.

Lemma itoa_reads_back (z : Z) :
  option_map Z.of_int (NilZero.int_of_string (fmt.itoa z)) = Some z.
Proof.
  unfold fmt.itoa. rewrite NilZero.isi.
  - cbn [option_map]. now rewrite DecimalZ.of_to.
  - destruct z as [|p|p]; cbn [Z.to_int]; try discriminate.
    intros E. injection E as E. exact (DecimalPos.Unsigned.to_uint_nonnil p E).
  - destruct z as [|p|p]; cbn [Z.to_int]; try discriminate.
    intros E. injection E as E. exact (DecimalPos.Unsigned.to_uint_nonnil p E).
Qed.

Lemma itoa_injective (z z' : Z) : fmt.itoa z = fmt.itoa z' -> z = z'.
Proof.
  intros E. pose proof (itoa_reads_back z) as Hz. rewrite E, itoa_reads_back in Hz.
  now injection Hz.
Qed.

Lemma append_cancel_l (a x y : string) : a +++ x = a +++ y -> x = y.
Proof. induction a as [|ch a IH]; cbn; intros E; [exact E | injection E; auto]. Qed.

Lemma append_cancel_r (s x y : string) : x +++ s = y +++ s -> x = y.
Proof.
  revert y. induction x as [|ch x IH]; intros [|ch' y] E; cbn in E.
  - reflexivity.
  - apply (f_equal String.length) in E. cbn in E. rewrite length_append in E. lia.
  - apply (f_equal String.length) in E. cbn in E. rewrite length_append in E. lia.
  - injection E as -> E. now rewrite (IH y E).
Qed.

Lemma rendered_tells_lengths_apart {A : Type} (f : A -> string) (xs ys : list A) :
  (3 < length xs)%nat -> (3 < length ys)%nat ->
  GoInt.len xs <= GoInt.MaxInt -> GoInt.len ys <= GoInt.MaxInt ->
  map f (take 3 xs) = map f (take 3 ys) ->
  summary.rendered f xs = summary.rendered f ys ->
  length xs = length ys.
Proof.
  intros Hx Hy Hfx Hfy Hfirst E.
  rewrite !rendered_first_items in E
    by (try assumption; intros ->; cbn in *; lia).
  replace (Nat.min 3 (length xs)) with 3%nat in E by lia.
  replace (Nat.min 3 (length ys)) with 3%nat in E by lia.
  destruct (Nat.ltb_spec 3 (length xs)); [|lia].
  destruct (Nat.ltb_spec 3 (length ys)); [|lia].
  rewrite Hfirst in E. apply append_cancel_l in E. unfold spec.more in E.
  apply append_cancel_l, append_cancel_r, itoa_injective in E. lia.
Qed.

(** The count in the suffix tells lengths apart: of two lists of more than
    three items that show the same first three canonical strings, equal
    attributes come only from equal lengths.  (The lists are Go slices:
    their length fits an [int].) *)
Theorem suffix_count_tells_lengths_apart :
  (forall cs cs' : list Cid,
      (3 < length cs)%nat -> (3 < length cs')%nat ->
      GoInt.len cs <= GoInt.MaxInt -> GoInt.len cs' <= GoInt.MaxInt ->
      map ident.ToString (take 3 cs) = map ident.ToString (take 3 cs') ->
      Tracing.CidListAttribute cs = Tracing.CidListAttribute cs' ->
      length cs = length cs')
  /\
  (forall bs bs' : list Block,
      (3 < length bs)%nat -> (3 < length bs')%nat ->
      GoInt.len bs <= GoInt.MaxInt -> GoInt.len bs' <= GoInt.MaxInt ->
      map (fun b => ident.ToString (ident.BlockCid b)) (take 3 bs)
      = map (fun b => ident.ToString (ident.BlockCid b)) (take 3 bs') ->
      Tracing.BlockListAttribute bs = Tracing.BlockListAttribute bs' ->
      length bs = length bs').
Proof.
  split.
  - intros cs cs' Hn Hn' Hf Hf' Hfirst E.
    rewrite !CidListAttribute_rendered in E. injection E as E.
    now apply (rendered_tells_lengths_apart ident.ToString cs cs').
  - intros bs bs' Hn Hn' Hf Hf' Hfirst E.
    rewrite !BlockListAttribute_rendered in E. injection E as E.
    now apply (rendered_tells_lengths_apart
                 (fun b => ident.ToString (ident.BlockCid b)) bs bs').
Qed.

End Count.

(** ** These properties on the recording stub *)

Section MoreOnTheStub.

Local Abbreviation Traced := (entry.Traced stub.Cid stub.Path stub.Block).
Local Abbreviation four_cids := [stub.cidA; stub.cidB; stub.cidC; stub.cidD].
Local Abbreviation four_blocks :=
  [stub.blk stub.cidA; stub.blk stub.cidB; stub.blk stub.cidC; stub.blk stub.cidD].
Local Abbreviation StubCall := (trace.Call stub.Ctx stub.SpanH).
Local Abbreviation set_cid_A :=
  (trace.CallSetAttributes 0%nat [attribute.String "cid" "QmA"]).

Lemma helper_calls_target_the_returned_span_witness :
  In (set_cid_A : StubCall)
     (trace.log (entry.SpanWith entry.tracing_go (entry.TCid stub.cidA : Traced)
                   None "Bitswap" "GetBlocks") stub.sampled)
  /\ ((set_cid_A : StubCall) = trace.CallStart "" None "Bitswap.GetBlocks" []
      \/ (set_cid_A : StubCall) = trace.CallIsRecording 0%nat
      \/ ((exists kv, (set_cid_A : StubCall) = trace.CallSetAttributes 0%nat [kv])
          /\ trace.recording_after_start "" None "Bitswap.GetBlocks" [] stub.sampled = true)).
Proof.
  assert (Hin : In (set_cid_A : StubCall)
                   (trace.log (entry.SpanWith entry.tracing_go (entry.TCid stub.cidA : Traced)
                                 None "Bitswap" "GetBlocks") stub.sampled)).
  { vm_compute. right. right. left. reflexivity. }
  split; [exact Hin|].
  exact (helper_calls_target_the_returned_span entry.tracing_go
           (entry.TCid stub.cidA : Traced) None "Bitswap" "GetBlocks" stub.sampled _ Hin).
Defined.

Lemma helper_attaches_the_constructor_attribute_witness :
  (standalone.constructor (entry.TBlockList four_blocks : Traced)
   = Some (attribute.String "blocks" "QmA,QmB,QmC and 1 more")
   /\ standalone.parts_ways entry.part_000 (entry.TBlockList four_blocks : Traced) = false
   /\ trace.recording_after_start "" None ("Bitswap" +++ "." +++ "GetBlocks") []
        stub.sampled = true)
  /\ trace.log (entry.SpanWith entry.part_000 (entry.TBlockList four_blocks : Traced)
                  None "Bitswap" "GetBlocks") stub.sampled
     = [trace.CallStart "" None "Bitswap.GetBlocks" [];
        trace.CallIsRecording 0%nat;
        trace.CallSetAttributes 0%nat
          [attribute.String "blocks" "QmA,QmB,QmC and 1 more"]].
Proof.
  split; [repeat split|].
  refine (helper_attaches_the_constructor_attribute entry.part_000
            (entry.TBlockList four_blocks : Traced) None "Bitswap" "GetBlocks"
            stub.sampled _ _ _ _); reflexivity.
Defined.

Lemma files_agree_except_on_no_block_witness :
  standalone.parts_ways entry.part_000 (entry.TBlockList four_blocks : Traced) = false
  /\ trace.run (entry.SpanWith entry.tracing_go (entry.TBlockList four_blocks : Traced)
                  None "Bitswap" "GetBlocks") stub.sampled
     = trace.run (entry.SpanWith entry.part_000 (entry.TBlockList four_blocks : Traced)
                    None "Bitswap" "GetBlocks") stub.sampled.
Proof.
  split; [reflexivity|].
  refine (files_agree_except_on_no_block (entry.TBlockList four_blocks : Traced)
            None "Bitswap" "GetBlocks" (trace.mkWorld stub.sampled []) _).
  reflexivity.
Defined.

Lemma no_dot_in_Bitswap : ~ In "."%char (list_ascii_of_string "Bitswap").
Proof.
  intros Hin. cbn in Hin.
  repeat (destruct Hin as [Hin|Hin]; [discriminate Hin|]). exact Hin.
Defined.

Lemma span_name_determines_component_and_operation_witness :
  ~ In "."%char (list_ascii_of_string "Bitswap")
  /\ trace.started_names
       (trace.log (entry.SpanOf entry.tracing_go None "Bitswap" "GetBlocks" []) stub.sampled)
     = trace.started_names
         (trace.log (entry.SpanOf entry.part_000 (Some 7%nat) "Bitswap" "GetBlocks"
                       [trace.WithNewRoot]) stub.unsampled)
  /\ ("Bitswap"%string = "Bitswap"%string /\ "GetBlocks"%string = "GetBlocks"%string).
Proof.
  split; [exact no_dot_in_Bitswap|]. split; [reflexivity|].
  refine (span_name_determines_component_and_operation
            entry.tracing_go entry.part_000 None (Some 7%nat)
            "Bitswap" "Bitswap" "GetBlocks" "GetBlocks" [] [trace.WithNewRoot]
            stub.sampled stub.unsampled no_dot_in_Bitswap no_dot_in_Bitswap _).
  reflexivity.
Defined.

Lemma list_attribute_keeps_length_and_first_three_witness :
  (length four_cids = length [stub.cidA; stub.cidB; stub.cidC; stub.cidA]
   /\ map ident.ToString (take 3 four_cids)
      = map ident.ToString (take 3 [stub.cidA; stub.cidB; stub.cidC; stub.cidA]))
  /\ Tracing.CidListAttribute four_cids
     = Tracing.CidListAttribute [stub.cidA; stub.cidB; stub.cidC; stub.cidA]
  /\ Tracing.BlockListAttribute four_blocks
     = Tracing.BlockListAttribute
         [stub.blk stub.cidA; stub.blk stub.cidB; stub.blk stub.cidC;
          stub.mkBlock stub.cidD [1; 2; 3]].
Proof.
  split; [split; reflexivity|]. split.
  - refine (proj1 list_attribute_keeps_length_and_first_three four_cids
              [stub.cidA; stub.cidB; stub.cidC; stub.cidA] _ _); reflexivity.
  - refine (proj2 list_attribute_keeps_length_and_first_three four_blocks
              [stub.blk stub.cidA; stub.blk stub.cidB; stub.blk stub.cidC;
               stub.mkBlock stub.cidD [1; 2; 3]] _ _); reflexivity.
Defined.

Lemma suffix_count_tells_lengths_apart_witness :
  ((3 < length four_cids)%nat
   /\ (3 < length [stub.cidA; stub.cidB; stub.cidC; stub.cidA])%nat
   /\ GoInt.len four_cids <= GoInt.MaxInt
   /\ GoInt.len [stub.cidA; stub.cidB; stub.cidC; stub.cidA] <= GoInt.MaxInt
   /\ map ident.ToString (take 3 four_cids)
      = map ident.ToString (take 3 [stub.cidA; stub.cidB; stub.cidC; stub.cidA])
   /\ Tracing.CidListAttribute four_cids
      = Tracing.CidListAttribute [stub.cidA; stub.cidB; stub.cidC; stub.cidA])
  /\ length four_cids = length [stub.cidA; stub.cidB; stub.cidC; stub.cidA].
Proof.
  split; [repeat split; try (cbn; lia); discriminate|].
  refine (proj1 suffix_count_tells_lengths_apart four_cids
            [stub.cidA; stub.cidB; stub.cidC; stub.cidA] _ _ _ _ _ _);
    try (cbn; lia); try discriminate; reflexivity.
Defined.

Lemma helpers_return_what_start_returns_witness :
  (standalone.takes_interface (entry.TCidList four_cids : Traced) = false
   /\ trace.recording_after_start "" None ("Bitswap" +++ "." +++ "GetBlocks")
        (entry.start_options (entry.TPath (stub.mkPath "/ipfs/QmA") : Traced))
        stub.unsampled = false
   /\ fst (trace.run (entry.SpanWith entry.part_000
                        (entry.TBlock (stub.blk stub.cidA) : Traced)
                        None "Bitswap" "GetBlocks") stub.sampled)
      = Some (Some 0%nat, 0%nat))
  /\ fst (trace.run (entry.SpanWith entry.tracing_go (entry.TCidList four_cids : Traced)
                       None "Bitswap" "GetBlocks") stub.sampled)
     = Some (Some 0%nat, 0%nat)
  /\ fst (trace.run (entry.SpanWith entry.tracing_go
                       (entry.TPath (stub.mkPath "/ipfs/QmA") : Traced)
                       None "Bitswap" "GetBlocks") stub.unsampled)
     = Some (Some 0%nat, 0%nat)
  /\ (Some 0%nat, 0%nat)
     = fst (stub.Start "" None "Bitswap.GetBlocks" [] stub.sampled).
Proof.
  split; [repeat split|].
  destruct (helpers_return_what_start_returns (Cid:=stub.Cid) (Path:=stub.Path)
              (Block:=stub.Block) entry.tracing_go None "Bitswap" "GetBlocks"
              stub.sampled) as (_ & Hplain & _ & _).
  destruct (helpers_return_what_start_returns (Cid:=stub.Cid) (Path:=stub.Path)
              (Block:=stub.Block) entry.tracing_go None "Bitswap" "GetBlocks"
              stub.unsampled) as (_ & _ & Hquiet & _).
  destruct (helpers_return_what_start_returns (Cid:=stub.Cid) (Path:=stub.Path)
              (Block:=stub.Block) entry.part_000 None "Bitswap" "GetBlocks"
              stub.sampled) as (_ & _ & _ & Hany).
  split; [|split].
  - refine (Hplain (entry.TCidList four_cids) _). reflexivity.
  - refine (Hquiet (entry.TPath (stub.mkPath "/ipfs/QmA")) _). reflexivity.
  - refine (Hany (entry.TBlock (stub.blk stub.cidA)) (Some 0%nat, 0%nat) _). reflexivity.
Defined.

Lemma empty_list_attribute_witness :
  trace.recording_after_start "" None ("Bitswap" +++ "." +++ "GetBlocks") []
    stub.sampled = true
  /\ trace.set_attributes_calls
       (trace.log (Tracing.SpanWithCidListAttribute None "Bitswap" "GetBlocks"
                     (@nil stub.Cid)) stub.sampled)
     = [(0%nat, [attribute.String "cids" "empty list"])]
  /\ trace.set_attributes_calls
       (trace.log (Tracing.SpanWithBlockListAttribute None "Bitswap" "GetBlocks"
                     (@nil stub.Block)) stub.sampled)
     = [(0%nat, [attribute.String "blocks" "empty list"])]
  /\ trace.set_attributes_calls
       (trace.log (Part000.SpanWithCidListAttribute None "Bitswap" "GetBlocks"
                     (@nil stub.Cid)) stub.sampled)
     = [(0%nat, [attribute.String "cids" "empty list"])].
Proof.
  split; [reflexivity|].
  refine (empty_list_attribute (Cid:=stub.Cid) (Block:=stub.Block)
            None "Bitswap" "GetBlocks" stub.sampled _).
  reflexivity.
Defined.

End MoreOnTheStub.
